(** * vamship/aws-dynamodb: Entity and SimpleEntity

    A shallow embedding of [src/entity.js] (class [Entity]) and
    [src/simple-entity.js] (class [SimpleEntity]) and the properties of
    the CRUD protocol that are layered on top of the DynamoDB client. *)

From Stdlib Require Import ZArith.
From stdpp Require Import base option strings pretty list gmap fin_maps.

Local Open Scope Z_scope.
Local Open Scope string_scope.
Set Warnings "-register-all".

(** ** JavaScript values

    Objects are finite maps from property names to values: the code only
    reads own properties, merges objects ([Object.assign]) and enumerates
    their names ([Object.keys]).  Numbers are the integral ones; functions
    are opaque and identified by a tag. *)

Inductive value : Type :=
| VUndefined
| VNull
| VBool (b : bool)
| VNum (n : Z)
| VStr (s : string)
| VObj (o : gmap string value)
| VArr (l : list value)
| VFun (id : nat).

Abbreviation obj := (gmap string value).

(** [typeof v], restricted to the tags that the code compares against. *)
Inductive jstype := TUndefined | TObject | TBoolean | TNumber | TString | TFunction.

Definition typeof (v : value) : jstype :=
  match v with
  | VUndefined => TUndefined
  | VNull => TObject
  | VBool _ => TBoolean
  | VNum _ => TNumber
  | VStr _ => TString
  | VObj _ => TObject
  | VArr _ => TObject
  | VFun _ => TFunction
  end.

Definition is_undefined (v : value) : bool :=
  match v with VUndefined => true | _ => false end.

(** JavaScript truthiness ([ToBoolean]). *)
Definition truthy (v : value) : bool :=
  match v with
  | VUndefined | VNull => false
  | VBool b => b
  | VNum n => negb (n =? 0)%Z
  | VStr s => negb (String.length s =? 0)%nat
  | VObj _ | VArr _ | VFun _ => true
  end.

(** ** Errors and completions *)

(** An error object as the store raises it: whether it is a plain [Error]
    (its prototype is [Error.prototype] itself, as for the errors of the
    AWS SDK), an [OperationalError] of bluebird or an error of another
    class, and its own enumerable properties, [code] among them. *)
Inductive error_class := PlainError | OperationalError | OtherError.

Record error_object : Type := {
  error_class_of : error_class;
  own : obj
}.

(** What is thrown, and what a promise is rejected with: an error of the
    libraries in use, an error object of the store, or any other value
    ([Thrown]), which need not be an object. *)
Inductive error : Type :=
| ArgError (message : string)
| TypeError (message : string)
| DuplicateRecordError
| ConcurrencyControlError
| StoreError (e : error_object)
| Thrown (v : value).

Inductive completion (A : Type) : Type :=
| Normal (a : A)
| Throw (e : error).
Arguments Normal {A} a.
Arguments Throw {A} e.

Definition cbind {A B} (c : completion A) (k : A -> completion B) : completion B :=
  match c with
  | Normal a => k a
  | Throw e => Throw e
  end.

Declare Scope js_scope.
Delimit Scope js_scope with js.
Notation "'let!' x ':=' c 'in' k" := (cbind c (fun x => k))
  (at level 10, x pattern, c at level 100, k at level 200, only parsing) : js_scope.
Notation "c ';;!' k" := (cbind c (fun _ => k))
  (at level 100, k at level 200, right associativity, only parsing) : js_scope.

(** Property read [v[name]].  Reading a property of [undefined] or [null]
    throws; a missing property reads as [undefined]. *)
Definition get_prop (v : value) (name : string) : completion value :=
  match v with
  | VUndefined | VNull =>
      Throw (TypeError ("Cannot read properties of undefined or null (reading "
                          +:+ name +:+ ")"))
  | VObj o => Normal (default VUndefined (o !! name))
  | _ => Normal VUndefined
  end.

(** Read of an own property of an object. *)
Definition obj_get (o : obj) (name : string) : value :=
  default VUndefined (o !! name).

(** A property name given by an expression that may be [undefined]:
    [o[undefined]] reads the property called "undefined". *)
Definition prop_name (n : option string) : string :=
  match n with Some s => s | None => "undefined" end.

Definition name_value (n : option string) : value :=
  match n with Some s => VStr s | None => VUndefined end.

(** ** The argument validator ([@vamship/arg-utils])

    [checkX(arg)] returns a boolean; [checkX(arg, message)] throws an
    [ArgError] carrying [message] when the check fails.  The defaults are
    those of the library: a string has to have at least one character and
    a number has to be at least 1, which the unit tests of this repository
    depend on (the empty string is not a hash key, -1 is not a count). *)
Module ArgValidator.

Definition checkObject (arg : value) : bool :=
  match arg with VObj _ => true | _ => false end.

Definition checkStringMin (arg : value) (minLength : nat) : bool :=
  match arg with
  | VStr s => (minLength <=? String.length s)%nat
  | _ => false
  end.

Definition checkString (arg : value) : bool := checkStringMin arg 1.

Definition checkNumberMin (arg : value) (min : Z) : bool :=
  match arg with
  | VNum n => (min <=? n)%Z
  | _ => false
  end.

Definition checkNumber (arg : value) : bool := checkNumberMin arg 1.

Definition checkFunction (arg : value) : bool :=
  match arg with VFun _ => true | _ => false end.

Definition orThrow (ok : bool) (message : string) : completion unit :=
  if ok then Normal tt else Throw (ArgError message).

End ArgValidator.
Import ArgValidator.

(** ** Objects *)

(** The own enumerable properties that [Object.assign] copies from a
    source: those of an object, the indexed elements of an array, nothing
    for [undefined], [null], booleans, numbers and functions. *)
Definition indexed (l : list value) : obj :=
  list_to_map (imap (fun i v => (pretty i, v)) l).

Definition own_props (v : value) : obj :=
  match v with
  | VObj o => o
  | VArr l => indexed l
  | VStr s =>
      indexed ((fun c => VStr (String c EmptyString)) <$> String.list_ascii_of_string s)
  | _ => ∅
  end.

(** [Object.assign(target, ...sources)]: later sources win. *)
Definition Object_assign (target : obj) (sources : list value) : obj :=
  foldl (fun t s => own_props s ∪ t) target sources.

(** [Object.keys(o)]; the enumeration order is that of the map. *)
Definition Object_keys (o : obj) : list string := (map_to_list o).*1.

(** ** selective-copy

    [new SelectiveCopy(properties).copy(src, dest, transform)] copies the
    listed properties that [src] defines into [dest] (a new object when
    omitted), passing each value through [transform] when one is given;
    a [transform] that throws makes [copy] throw.  Concrete entities plug
    in their own copiers, so a copier is any object with a [copy] method;
    the object it returns is taken to be distinct from the arguments of
    the call. *)
Record SelectiveCopy : Type := {
  copy : value -> option obj -> option (string -> value -> completion value)
         -> completion obj
}.

Definition SelectiveCopy_new (properties : list string) : SelectiveCopy :=
  {| copy src dest transform :=
       foldl (fun acc p =>
                (let! d := acc in
                 match own_props src !! p with
                 | Some v =>
                     let! x := default (fun _ x => Normal x) transform p v in
                     Normal (<[p := x]> d)
                 | None => Normal d
                 end)%js)
             (Normal (default ∅ dest)) properties |}.

Definition DEFAULT_COPIER : SelectiveCopy := SelectiveCopy_new [].

(** ** Loggers

    A logger is the one handed to the constructor, the one obtained from
    [_logger.getLogger(name, props)], or a child of a logger with bound
    fields.  Writing a log message neither throws nor affects anything
    modelled here, so the calls that only write messages are left out. *)
Inductive logger : Type :=
| ProvidedLogger (l : value)
| DefaultLogger (name : string) (props : obj)
| ChildLogger (parent : logger) (fields : obj).

(** What the constructor asks of loggers: [_logger.getLogger(name, props)]
    of the logger library, which may refuse a name, and [logger.child(fields)]
    of the logger in use, which is code of the caller when the logger was
    handed to the constructor.  Either may throw.  The logger that an
    entity holds after its construction follows the interface: its [child]
    returns a logger. *)
Record Loggers : Type := {
  getLogger : string -> obj -> completion logger;
  child : logger -> obj -> completion logger
}.

Definition LOG_METHODS : list string :=
  ["trace"; "debug"; "info"; "warn"; "error"; "fatal"; "silent"; "child"].

(** ** class Entity *)

(** What a concrete entity class declares by overriding the getters of
    [Entity]; [None] is a getter that returns [undefined]. *)
Record EntityClass : Type := {
  className : string;
  tableName : option string;
  hashKeyName : option string;
  rangeKeyName : option string;
  _updateCopier : SelectiveCopy;
  _deleteCopier : SelectiveCopy
}.

(** The getters of the base class. *)
Definition Entity_class : EntityClass :=
  {| className := "Entity";
     tableName := None;
     hashKeyName := None;
     rangeKeyName := None;
     _updateCopier := DEFAULT_COPIER;
     _deleteCopier := DEFAULT_COPIER |}.

Record Entity : Type := {
  class : EntityClass;
  __logger : logger;
  _username : value;
  _awsRegion : value;
  _awsCredentials : value
}.

Record EntityParams : Type := {
  hashKey : value;
  rangeKey : value;
  username : value;
  params_logger : logger
}.

Local Open Scope js_scope.

(** [LOG_METHODS.reduce((result, method) =>
       result && checkFunction(logger[method]), checkObject(logger))] *)
Definition isLoggerValid (logger : value) : completion bool :=
  foldl (fun acc method =>
           let! result := acc in
           if (result : bool)
           then let! f := get_prop logger method in Normal (checkFunction f)
           else Normal false)
        (Normal (checkObject logger)) LOG_METHODS.

Definition Entity_new (loggers : Loggers) (cls : EntityClass) (options : value)
  : completion Entity :=
  let options := Object_assign ∅ [options] in
  let username := obj_get options "username" in
  let logger := obj_get options "logger" in
  let awsRegion := obj_get options "awsRegion" in
  let awsCredentials := obj_get options "awsCredentials" in
  let! isLoggerValid := isLoggerValid logger in
  let! logger :=
    if (isLoggerValid : bool) then Normal (ProvidedLogger logger)
    else getLogger loggers (className cls) ∅ in
  let username := if checkString username then username else VStr "SYSTEM" in
  let awsRegion := if checkString awsRegion then awsRegion else VUndefined in
  let awsCredentials :=
    if checkObject awsCredentials then awsCredentials else VUndefined in
  let! __logger :=
    child loggers logger {[ "entity" := name_value (tableName cls) ]} in
  Normal {| class := cls;
            __logger := __logger;
            _username := username;
            _awsRegion := awsRegion;
            _awsCredentials := awsCredentials |}.

Definition _getHashKey (this : Entity) (keys : value) : completion value :=
  let! hashKey := get_prop keys (prop_name (hashKeyName (class this))) in
  let isValidString := checkString hashKey in
  let isValidNumber := checkNumber hashKey in
  if negb isValidString && negb isValidNumber
  then Throw (ArgError ("Invalid hash key (keys."
                          +:+ prop_name (hashKeyName (class this)) +:+ ")"))
  else Normal hashKey.

Definition _getRangeKey (this : Entity) (keys : value) (allowUndefined : value)
  : completion value :=
  match rangeKeyName (class this) with
  | Some name =>
      let! rangeKey := get_prop keys name in
      if is_undefined rangeKey && truthy allowUndefined
      then Normal rangeKey
      else
        let isValidString := checkString rangeKey in
        let isValidNumber := checkNumber rangeKey in
        if negb isValidString && negb isValidNumber
        then Throw (ArgError ("Invalid range key (keys." +:+ name +:+ ")"))
        else Normal rangeKey
  | None => Normal VUndefined
  end.

Definition _getUsername (this : Entity) (audit : value) : completion value :=
  if negb (checkObject audit) then Normal (_username this)
  else
    let! u := get_prop audit "username" in
    if negb (checkString u) then Normal (_username this) else Normal u.

Definition _initParams (this : Entity) (keys : value) (operation : value)
    (audit : value) (rangeKeyOptional : value) : completion EntityParams :=
  orThrow (checkObject keys) "Invalid keys (arg #1)" ;;!
  let! hashKey := _getHashKey this keys in
  let! rangeKey := _getRangeKey this keys rangeKeyOptional in
  let! username := _getUsername this audit in
  let logger :=
    ChildLogger (__logger this)
      (<["rangeKey" := rangeKey]>
         (<["hashKey" := hashKey]>
            (<["username" := username]> {[ "operation" := operation ]}))) in
  Normal {| hashKey := hashKey;
            rangeKey := rangeKey;
            username := username;
            params_logger := logger |}.

(** ** The DynamoDB client ([@awspilot/dynamodb])

    The fluent client accumulates the clauses of one request: [where],
    [if] and [having] name a field, the [eq] that follows attaches the
    value to the clause that is pending. *)
Inductive clause := ClauseWhere | ClauseIf | ClauseHaving.

Record client : Type := {
  region : value;
  credentials : value;
  table : value;
  pending : option (clause * value);
  whereKey : list (value * value);
  ifFilter : list (value * value);
  havingFilter : list (value * value);
  returnValues : option value;
  exclusiveStartKey : option value;
  limitValue : option value
}.

Module Client.

Definition new (region credentials table : value) : client :=
  {| region := region; credentials := credentials; table := table;
     pending := None; whereKey := []; ifFilter := []; havingFilter := [];
     returnValues := None; exclusiveStartKey := None; limitValue := None |}.

Definition set_pending (c : client) (p : option (clause * value)) : client :=
  {| region := region c; credentials := credentials c; table := table c;
     pending := p; whereKey := whereKey c; ifFilter := ifFilter c;
     havingFilter := havingFilter c; returnValues := returnValues c;
     exclusiveStartKey := exclusiveStartKey c; limitValue := limitValue c |}.

Definition where_ (c : client) (field : value) : client :=
  set_pending c (Some (ClauseWhere, field)).

Definition if_ (c : client) (field : value) : client :=
  set_pending c (Some (ClauseIf, field)).

Definition having (c : client) (field : value) : client :=
  set_pending c (Some (ClauseHaving, field)).

Definition eq (c : client) (v : value) : client :=
  match pending c with
  | Some (ClauseWhere, f) =>
      {| region := region c; credentials := credentials c; table := table c;
         pending := None; whereKey := whereKey c ++ [(f, v)];
         ifFilter := ifFilter c; havingFilter := havingFilter c;
         returnValues := returnValues c;
         exclusiveStartKey := exclusiveStartKey c; limitValue := limitValue c |}
  | Some (ClauseIf, f) =>
      {| region := region c; credentials := credentials c; table := table c;
         pending := None; whereKey := whereKey c;
         ifFilter := ifFilter c ++ [(f, v)]; havingFilter := havingFilter c;
         returnValues := returnValues c;
         exclusiveStartKey := exclusiveStartKey c; limitValue := limitValue c |}
  | Some (ClauseHaving, f) =>
      {| region := region c; credentials := credentials c; table := table c;
         pending := None; whereKey := whereKey c;
         ifFilter := ifFilter c; havingFilter := havingFilter c ++ [(f, v)];
         returnValues := returnValues c;
         exclusiveStartKey := exclusiveStartKey c; limitValue := limitValue c |}
  | None => c
  end.

Definition return_ (c : client) (v : value) : client :=
  {| region := region c; credentials := credentials c; table := table c;
     pending := pending c; whereKey := whereKey c; ifFilter := ifFilter c;
     havingFilter := havingFilter c; returnValues := Some v;
     exclusiveStartKey := exclusiveStartKey c; limitValue := limitValue c |}.

Definition resume (c : client) (token : value) : client :=
  {| region := region c; credentials := credentials c; table := table c;
     pending := pending c; whereKey := whereKey c; ifFilter := ifFilter c;
     havingFilter := havingFilter c; returnValues := returnValues c;
     exclusiveStartKey := Some token; limitValue := limitValue c |}.

Definition limit (c : client) (n : value) : client :=
  {| region := region c; credentials := credentials c; table := table c;
     pending := pending c; whereKey := whereKey c; ifFilter := ifFilter c;
     havingFilter := havingFilter c; returnValues := returnValues c;
     exclusiveStartKey := exclusiveStartKey c; limitValue := Some n |}.

End Client.

(** The five actions of the client; [insert] and [update] carry the
    payload bound to them. *)
Inductive action : Type :=
| Insert (payload : obj)
| Get
| Query
| Update (payload : obj)
| Delete.

(** A request as the store receives it: the action and the client it was
    invoked on. *)
Record request : Type := {
  req_action : action;
  req_client : client
}.

(** What the store hands to the callback of an action: [(null, data)] or
    [(err)], the error being an error object that may carry a [code]. *)
Inductive store_outcome : Type :=
| StoreOk (data : value)
| StoreErr (err : error_object).

(** ** The environment of a call

    The collaborators that the code reaches through its imports: the
    token generator [shortid], the clock, the key codec of the AWS SDK, the
    store itself, whose answer to a request may depend on all the requests
    it has served before, and two members of the client object that
    [table()] returns: [ALL_OLD] is what reading [client.ALL_OLD] gives,
    which is [undefined] when the client has no such member, and [del] is
    what calling [client.del()] returns, [None] when the client has no such
    method.  The request object of [@awspilot/dynamodb] has neither (they
    are members of the factory); the client of the unit tests of
    [SimpleEntity] has a [del] and no [ALL_OLD]. *)
Record Env : Type := {
  shortId_generate : nat -> string;
  Date_now : nat -> Z;
  Converter_input_M : obj -> value;
  ALL_OLD : value;
  del : option value;
  store : list request -> request -> store_outcome
}.

(** [client.del()]: calling what is not a function throws. *)
Definition client_del (env : Env) : completion value :=
  match del env with
  | Some marker => Normal marker
  | None => Throw (TypeError "client.del is not a function")
  end.

(** The part of the world that a call changes: how many tokens were
    generated, how often the clock was read, and the requests that the
    store has received, oldest first. *)
Record World : Type := {
  tokens : nat;
  clock_reads : nat;
  sent : list request
}.

Inductive promise : Type :=
| Fulfilled (v : value)
| Rejected (e : error).

(** Computations that may throw and that act on the world. *)
Definition M (A : Type) : Type := World -> completion A * World.

Definition ret {A} (a : A) : M A := fun w => (Normal a, w).
Definition throw {A} (e : error) : M A := fun w => (Throw e, w).
Definition lift {A} (c : completion A) : M A := fun w => (c, w).
Definition bind {A B} (m : M A) (k : A -> M B) : M B :=
  fun w => match m w with
           | (Normal a, w') => k a w'
           | (Throw e, w') => (Throw e, w')
           end.

Notation "x '<-' m ';;' k" := (bind m (fun x => k))
  (at level 100, m at next level, k at level 200, right associativity,
   only parsing) : js_scope.
Notation "m ';;' k" := (bind m (fun _ => k))
  (at level 100, k at level 200, right associativity, only parsing) : js_scope.

(** A handler passed to [then] runs to a completion, which settles the
    promise that [then] returns. *)
Definition settle (m : M value) : M promise :=
  fun w => match m w with
           | (Normal v, w') => (Normal (Fulfilled v), w')
           | (Throw e, w') => (Normal (Rejected e), w')
           end.

(** [p.then(onFulfilled, onRejected)]; a handler that is [undefined]
    passes the outcome on. *)
Definition then_ (p : promise) (onFulfilled : option (value -> M value))
    (onRejected : option (error -> M value)) : M promise :=
  match p with
  | Fulfilled v =>
      match onFulfilled with Some h => settle (h v) | None => ret p end
  | Rejected e =>
      match onRejected with Some h => settle (h e) | None => ret p end
  end.

(** [error.code]: reading a property of [undefined] or [null] throws. *)
Definition error_code (e : error) : completion value :=
  match e with
  | StoreError o => Normal (obj_get (own o) "code")
  | Thrown v => get_prop v "code"
  | _ => Normal VUndefined
  end.

(** What [Promise.promisify] of bluebird rejects with when the callback
    receives the error [e]: [e] itself unless it is a plain [Error], which
    is replaced by a new [OperationalError] that refers to [e] as its
    [cause] (shown here by the properties of [e]) and takes over the own
    enumerable properties of [e] other than name, message, stack and
    cause. *)
Definition wrapAsOperationalError (e : error_object) : error_object :=
  match error_class_of e with
  | PlainError =>
      {| error_class_of := OperationalError;
         own := filter (fun kv => kv.1 ∉ ["name"; "message"; "stack"; "cause"]) (own e)
                ∪ (<["isOperational" := VBool true]> {[ "cause" := VObj (own e) ]}) |}
  | _ => e
  end.

(** The argument of [_execQuery]: a function that returns a promise, or a
    value that is not a function. *)
Inductive query_argument : Type :=
| Callable (run : M promise)
| NotCallable (v : value).

(** [v === s] for a string literal [s] *)
Definition strict_eq_string (v : value) (s : string) : bool :=
  match v with VStr s' => String.eqb s' s | _ => false end.

Section Operations.

Context (env : Env).

Definition shortId : M value :=
  fun w => (Normal (VStr (shortId_generate env (tokens w))),
            {| tokens := S (tokens w); clock_reads := clock_reads w; sent := sent w |}).

Definition now : M value :=
  fun w => (Normal (VNum (Date_now env (clock_reads w))),
            {| tokens := tokens w; clock_reads := S (clock_reads w); sent := sent w |}).

(** [Promise.promisify(client.action.bind(client, ...))()]: the request
    goes to the store, whose callback settles the promise, with the data or
    with the error as bluebird wraps it. *)
Definition invoke (a : action) (c : client) : M promise :=
  fun w =>
    let r := {| req_action := a; req_client := c |} in
    (Normal (match store env (sent w) r with
             | StoreOk data => Fulfilled data
             | StoreErr err => Rejected (StoreError (wrapAsOperationalError err))
             end),
     {| tokens := tokens w; clock_reads := clock_reads w; sent := sent w ++ [r] |}).

Definition _initClient (this : Entity) (hashKey rangeKey : value) : client :=
  let client :=
    Client.new (_awsRegion this) (_awsCredentials this)
               (name_value (tableName (class this))) in
  let client :=
    if negb (is_undefined hashKey)
    then Client.eq (Client.where_ client (name_value (hashKeyName (class this)))) hashKey
    else client in
  let client :=
    if negb (is_undefined rangeKey)
    then Client.eq (Client.where_ client (name_value (rangeKeyName (class this)))) rangeKey
    else client in
  client.

(** A query that is not a function is refused; the logger defaults to the
    one of the entity; the duration that is logged costs one reading of
    the clock at the start and one in either handler.  The rejection
    handler first takes [code] and [status] out of the error, which throws
    when the query was rejected with [undefined] or [null]. *)
Definition _execQuery (this : Entity) (query : query_argument)
    (logger : option logger) : M promise :=
  match query with
  | NotCallable _ => throw (ArgError "Invalid query (arg #1)")
  | Callable query =>
      let logger := default (__logger this) logger in
      startTime <- now ;;
      p <- query ;;
      then_ p
        (Some (fun results => _ <- now ;; ret results))
        (Some (fun error =>
                 code <- lift (error_code error) ;;
                 _ <- now ;; throw error))
  end.

End Operations.

(** ** class SimpleEntity extends Entity *)
Module SimpleEntity.
Section Operations.

Context (env : Env).

(** [!this.rangeKeyName] *)
Definition rangeKeyOptional (this : Entity) : value :=
  VBool (negb (truthy (name_value (rangeKeyName (class this))))).

(** The rejection handler of [create]. *)
Definition onInsertError (error : error) : M value :=
  code <- lift (error_code error) ;;
  if strict_eq_string code "ConditionalCheckFailedException"
  then throw DuplicateRecordError
  else throw error.

(** The rejection handler of [update] and [delete]. *)
Definition onWriteError (error : error) : M value :=
  code <- lift (error_code error) ;;
  if strict_eq_string code "ConditionalCheckFailedException"
  then throw ConcurrencyControlError
  else throw error.

Definition create (this : Entity) (keys props audit : value) : M promise :=
  lift (orThrow (checkObject props) "Invalid props (arg #2)") ;;
  params <- lift (_initParams this keys (VStr "create") audit (rangeKeyOptional this)) ;;
  let client := _initClient this VUndefined VUndefined in
  version <- shortId env ;;
  createDate <- now env ;;
  updateDate <- now env ;;
  let payload :=
    Object_assign ∅
      [props; keys;
       VObj (<["__updateDate" := updateDate]>
               (<["__updatedBy" := username params]>
                  (<["__createDate" := createDate]>
                     (<["__createdBy" := username params]>
                        (<["__version" := version]>
                           {[ "__status" := VStr "active" ]})))))] in
  p <- _execQuery env this (Callable (invoke env (Insert payload) client))
         (Some (params_logger params)) ;;
  then_ p None (Some onInsertError).

Definition lookup (this : Entity) (keys audit : value) : M promise :=
  lift (orThrow (checkObject keys) "Invalid keys (arg #1)") ;;
  params <- lift (_initParams this keys (VStr "lookup") audit (rangeKeyOptional this)) ;;
  let client := _initClient this (hashKey params) (rangeKey params) in
  let client := Client.eq (Client.if_ client (VStr "__status")) (VStr "active") in
  _execQuery env this (Callable (invoke env Get client))
    (Some (params_logger params)).

Definition update (this : Entity) (keys updateProps deleteProps version audit : value)
  : M promise :=
  lift (orThrow (checkObject keys) "Invalid keys (arg #1)") ;;
  lift (orThrow (checkObject updateProps) "Invalid update properties (arg #2)") ;;
  lift (orThrow (checkObject deleteProps) "Invalid delete properties (arg #3)") ;;
  lift (orThrow (checkStringMin version 1) "Invalid version (arg #4)") ;;
  params <- lift (_initParams this keys (VStr "update") audit (rangeKeyOptional this)) ;;
  let client := _initClient this (hashKey params) (rangeKey params) in
  let client := Client.eq (Client.if_ client (VStr "__status")) (VStr "active") in
  let client := Client.eq (Client.if_ client (VStr "__version")) version in
  let client := Client.return_ client (ALL_OLD env) in
  propsToUpdate <- lift (copy (_updateCopier (class this)) updateProps None None) ;;
  propsToUpdate <-
    lift (copy (_deleteCopier (class this)) deleteProps (Some propsToUpdate)
               (Some (fun property value => client_del env))) ;;
  let properties := Object_keys propsToUpdate in
  let result :=
    VObj (<["__version" := version]>
            (<["properties" := VArr (VStr <$> properties)]>
               {[ "keys" := keys ]})) in
  if (0 <? length properties)%nat then
    token <- shortId env ;;
    let propsToUpdate := <["__version" := token]> propsToUpdate in
    let propsToUpdate := <["__updatedBy" := username params]> propsToUpdate in
    updateDate <- now env ;;
    let propsToUpdate := <["__updateDate" := updateDate]> propsToUpdate in
    p <- _execQuery env this (Callable (invoke env (Update propsToUpdate) client))
           (Some (params_logger params)) ;;
    then_ p (Some (fun results => ret result)) (Some onWriteError)
  else
    ret (Fulfilled result).

Definition delete (this : Entity) (keys version audit : value) : M promise :=
  lift (orThrow (checkObject keys) "Invalid keys (arg #1)") ;;
  lift (orThrow (checkStringMin version 1) "Invalid version (arg #2)") ;;
  params <- lift (_initParams this keys (VStr "delete") audit (rangeKeyOptional this)) ;;
  let client := _initClient this (hashKey params) (rangeKey params) in
  let client := Client.eq (Client.if_ client (VStr "__status")) (VStr "active") in
  let client := Client.eq (Client.if_ client (VStr "__version")) version in
  p <- _execQuery env this (Callable (invoke env Delete client))
         (Some (params_logger params)) ;;
  then_ p None (Some onWriteError).

Definition list (this : Entity) (keys count audit : value) : M promise :=
  lift (orThrow (checkObject keys) "Invalid keys (arg #1)") ;;
  params <- lift (_initParams this keys (VStr "list") audit (VBool true)) ;;
  let client := _initClient this (hashKey params) VUndefined in
  let client := Client.eq (Client.having client (VStr "__status")) (VStr "active") in
  let client :=
    if negb (is_undefined (rangeKey params)) then
      let resumeToken :=
        Converter_input_M env
          (<[prop_name (rangeKeyName (class this)) := rangeKey params]>
             {[ prop_name (hashKeyName (class this)) := hashKey params ]}) in
      Client.resume client resumeToken
    else client in
  let client := if checkNumber count then Client.limit client count else client in
  _execQuery env this (Callable (invoke env Query client))
    (Some (params_logger params)).

End Operations.
End SimpleEntity.

(** ** Concrete entities

    The two entity classes of the unit tests and a class without a name,
    the logger library, and two environments whose store answers every
    request in the same given way: [env] has the request object of
    [@awspilot/dynamodb] as its client, [mock] the client of the unit
    tests. *)
Module Example.

Definition HashKeyEntity : EntityClass :=
  {| className := "HashKeyEntity";
     tableName := Some "hash_key_table";
     hashKeyName := Some "accountId";
     rangeKeyName := None;
     _updateCopier := SelectiveCopy_new ["prop1"; "prop2"];
     _deleteCopier := SelectiveCopy_new ["prop3"; "prop4"] |}.

Definition RangeKeyEntity : EntityClass :=
  {| className := "RangeKeyEntity";
     tableName := Some "range_key_table";
     hashKeyName := Some "accountId";
     rangeKeyName := Some "entityId";
     _updateCopier := SelectiveCopy_new ["prop1"; "prop2"];
     _deleteCopier := SelectiveCopy_new ["prop3"; "prop4"] |}.

(** [new cls({})] *)
Definition instance (cls : EntityClass) : Entity :=
  {| class := cls;
     __logger := ChildLogger (DefaultLogger (className cls) ∅)
                   {[ "entity" := name_value (tableName cls) ]};
     _username := VStr "SYSTEM";
     _awsRegion := VUndefined;
     _awsCredentials := VUndefined |}.

Definition keys : value :=
  VObj (<["entityId" := VStr "e1"]> {[ "accountId" := VStr "acme" ]}).

Definition hashOnlyKeys : value := VObj {[ "accountId" := VStr "acme" ]}.

Definition props : value := VObj {[ "tag" := VStr "x" ]}.

Definition updateProps : value :=
  VObj (<["other" := VNum 7]> {[ "prop1" := VStr "new" ]}).

Definition deleteProps : value := VObj {[ "prop3" := VBool true ]}.

Definition noProps : value := VObj ∅.

(** Two errors as the AWS SDK raises them: plain [Error] objects that
    carry a [code]. *)
Definition conditionalCheckFailed : error_object :=
  {| error_class_of := PlainError;
     own := {[ "code" := VStr "ConditionalCheckFailedException" ]} |}.


(** An error of a class of its own. *)
Definition timeout : error_object :=
  {| error_class_of := OtherError;
     own := {[ "code" := VStr "TimeoutError" ]} |}.

Definition env (answer : store_outcome) : Env :=
  {| shortId_generate n := "token-" +:+ pretty n;
     Date_now n := 1700000000000 + Z.of_nat n;
     Converter_input_M o := VObj o;
     ALL_OLD := VUndefined;
     del := None;
     store _ _ := answer |}.

Definition mock (answer : store_outcome) : Env :=
  {| shortId_generate n := "token-" +:+ pretty n;
     Date_now n := 1700000000000 + Z.of_nat n;
     Converter_input_M o := VObj o;
     ALL_OLD := VUndefined;
     del := Some (VStr "_DEL");
     store _ _ := answer |}.

(** The logger library [@vamship/logger]: [getLogger] refuses a name that
    is not a string of at least one character; the loggers it returns, and
    those of the unit tests, return a child. *)
Definition loggers : Loggers :=
  {| getLogger name props :=
       if checkString (VStr name) then Normal (DefaultLogger name props)
       else Throw (ArgError "Invalid group (arg #1)");
     child l fields := Normal (ChildLogger l fields) |}.

(** [class extends Entity] as an expression without a name: its
    [constructor.name] is the empty string. *)
Definition Unnamed : EntityClass :=
  {| className := "";
     tableName := Some "unnamed_table";
     hashKeyName := Some "accountId";
     rangeKeyName := None;
     _updateCopier := DEFAULT_COPIER;
     _deleteCopier := DEFAULT_COPIER |}.

Definition world : World := {| tokens := 0; clock_reads := 0; sent := [] |}.

End Example.

(** ** Vocabulary of the statements *)

(** A value that the key validation lets through: a string of at least
    one character, or a number that is at least 1. *)
Definition key_value (v : value) : Prop :=
  (exists s, v = VStr s /\ s <> "") \/ (exists n, v = VNum n /\ (1 <= n)%Z).

(** A logger that the constructor keeps: an object on which every one of
    [LOG_METHODS] is a function. *)
Definition valid_logger (l : value) : Prop :=
  exists o, l = VObj o /\
    Forall (fun method => exists id, o !! method = Some (VFun id)) LOG_METHODS.

(** The keys of a call yield the hash key [H] and the range key [R]: the
    keys are an object and both extractions return. *)
Definition yields (this : Entity) (keys H R : value) : Prop :=
  checkObject keys = true /\
  _getHashKey this keys = Normal H /\
  _getRangeKey this keys (SimpleEntity.rangeKeyOptional this) = Normal R.


(** The fields that update selects: what the delete copier returns for
    deleteProps on top of what the update copier returns for updateProps,
    each deleted field standing for [client.del()]. *)
Definition selection (env : Env) (this : Entity) (updateProps deleteProps : value)
  : completion obj :=
  cbind (copy (_updateCopier (class this)) updateProps None None)
    (fun propsToUpdate =>
       copy (_deleteCopier (class this)) deleteProps (Some propsToUpdate)
            (Some (fun _ _ => client_del env))).

(** The fields that [create] generates. *)
Definition reserved_fields : list string :=
  ["__status"; "__version"; "__createdBy"; "__createDate";
   "__updatedBy"; "__updateDate"].


(** A rejection whose reason is [undefined] or [null]. *)
Definition rejected_with_nothing (e : error) : bool :=
  match e with
  | Thrown VUndefined | Thrown VNull => true
  | _ => false
  end.

(** The world after one more reading of the clock. *)
Definition after_clock_read (w : World) : World :=
  {| tokens := tokens w; clock_reads := S (clock_reads w); sent := sent w |}.

(** The keys [k] hold a range key that [_getRangeKey] lets through for the
    entity [this] when the range key is optional as [optional] says. *)
Definition range_key_passes (this : Entity) (k : obj) (optional : value) : Prop :=
  match rangeKeyName (class this) with
  | Some name =>
      key_value (obj_get k name) \/
      (obj_get k name = VUndefined /\ truthy optional = true)
  | None => True
  end.

(** The range key that [_getRangeKey] extracts from the keys [k]. *)
Definition range_key_of (this : Entity) (k : obj) : value :=
  match rangeKeyName (class this) with
  | Some name => obj_get k name
  | None => VUndefined
  end.

(** A client that filters nothing: no key filter, no condition, no
    returned image, no cursor and no limit. *)
Definition unfiltered (c : client) : Prop :=
  whereKey c = [] /\ ifFilter c = [] /\ havingFilter c = [] /\
  returnValues c = None /\ exclusiveStartKey c = None /\ limitValue c = None.

(** * Properties *)

(** ** The argument validator *)

Lemma checkString_true (v : value) :
  checkString v = true <-> exists s, v = VStr s /\ s <> "".
Proof.
  split.
  - destruct v as [| | | |s| | |]; cbn; try discriminate.
    destruct s; [discriminate|]. intros _. eexists; split; [reflexivity|discriminate].
  - intros (s & -> & Hs). destruct s; [contradiction|reflexivity].
Qed.

Lemma checkNumber_true (v : value) :
  checkNumber v = true <-> exists n, v = VNum n /\ (1 <= n)%Z.
Proof.
  split.
  - destruct v as [| | |n| | | |]; cbn; try discriminate.
    intros H. exists n. split; [reflexivity|]. by apply Z.leb_le.
  - intros (n & -> & Hn). cbn. by apply Z.leb_le.
Qed.

Lemma checkObject_true (v : value) :
  checkObject v = true <-> exists o, v = VObj o.
Proof.
  split.
  - destruct v; cbn; try discriminate. eauto.
  - by intros (o & ->).
Qed.

Lemma key_value_checks (v : value) :
  key_value v <-> negb (checkString v) && negb (checkNumber v) = false.
Proof.
  unfold key_value. rewrite <- checkString_true, <- checkNumber_true.
  destruct (checkString v), (checkNumber v); cbn; intuition congruence.
Qed.

Lemma key_value_defined (v : value) : key_value v -> is_undefined v = false.
Proof. by intros [(s & -> & _)|(n & -> & _)]. Qed.

(** ** Entity._getHashKey *)

Lemma _getHashKey_obj (this : Entity) (keys : obj) :
  _getHashKey this (VObj keys) =
    let v := obj_get keys (prop_name (hashKeyName (class this))) in
    if negb (checkString v) && negb (checkNumber v)
    then Throw (ArgError ("Invalid hash key (keys."
                            +:+ prop_name (hashKeyName (class this)) +:+ ")"))
    else Normal v.
Proof. reflexivity. Qed.

(** C6, as amended: for every keys mapping, the extraction of the hash key
    returns the value stored under the hash-key field exactly when that
    value is a string of at least one character or a number that is at
    least 1; in every other case (field absent, empty string, number below
    1, any other type) it raises an ArgError whose message names the
    field. *)
Theorem getHashKey_accepts_key_values (this : Entity) (keys : obj) :
  let name := prop_name (hashKeyName (class this)) in
  let v := obj_get keys name in
  (key_value v <-> _getHashKey this (VObj keys) = Normal v) /\
  (~ key_value v <->
     _getHashKey this (VObj keys)
       = Throw (ArgError ("Invalid hash key (keys." +:+ name +:+ ")"))).
Proof.
  intros name v. rewrite _getHashKey_obj. fold name. fold v. cbv zeta.
  rewrite key_value_checks.
  destruct (negb (checkString v) && negb (checkNumber v)); split; split;
    congruence.
Qed.

(** C6 as written fails: the empty string is a string, and it is not
    accepted as a hash key. *)
Lemma getHashKey_rejects_empty_string :
  let this := Example.instance Example.HashKeyEntity in
  let v := VStr "" in
  ~ (typeof v = TString \/ typeof v = TNumber <->
     _getHashKey this (VObj {[ "accountId" := v ]}) = Normal v).
Proof.
  intros this v [H _]. specialize (H (or_introl eq_refl)).
  vm_compute in H. discriminate H.
Qed.

(** ** Entity._getRangeKey *)

Lemma _getRangeKey_obj (this : Entity) (keys : obj) (allowUndefined : value) :
  _getRangeKey this (VObj keys) allowUndefined =
    match rangeKeyName (class this) with
    | Some name =>
        let v := obj_get keys name in
        if is_undefined v && truthy allowUndefined then Normal v
        else if negb (checkString v) && negb (checkNumber v)
             then Throw (ArgError ("Invalid range key (keys." +:+ name +:+ ")"))
             else Normal v
    | None => Normal VUndefined
    end.
Proof. unfold _getRangeKey. by destruct (rangeKeyName (class this)). Qed.

Lemma is_undefined_true (v : value) : is_undefined v = true <-> v = VUndefined.
Proof. destruct v; cbn; split; congruence. Qed.

(** C7, as amended: an entity without a range-key field yields undefined
    without looking at the keys; with a range-key field, an undefined value
    is passed through when [allowUndefined] is truthy, and otherwise the
    value is returned when it is a string of at least one character or a
    number that is at least 1, and an ArgError that names the field is
    raised when it is not. *)
Theorem getRangeKey_cases (this : Entity) (keys : obj) (allowUndefined : value) :
  match rangeKeyName (class this) with
  | None => _getRangeKey this (VObj keys) allowUndefined = Normal VUndefined
  | Some name =>
      let v := obj_get keys name in
      let r := _getRangeKey this (VObj keys) allowUndefined in
      (v = VUndefined /\ truthy allowUndefined = true -> r = Normal VUndefined) /\
      (~ (v = VUndefined /\ truthy allowUndefined = true) ->
         (key_value v -> r = Normal v) /\
         (~ key_value v ->
            r = Throw (ArgError ("Invalid range key (keys." +:+ name +:+ ")"))))
  end.
Proof.
  rewrite _getRangeKey_obj.
  destruct (rangeKeyName (class this)) as [name|]; [|reflexivity].
  cbv zeta. set (v := obj_get keys name).
  rewrite key_value_checks.
  split.
  - intros [Hv Ha]. by rewrite Hv, Ha.
  - intros Hno.
    assert (is_undefined v && truthy allowUndefined = false) as ->.
    { apply not_true_is_false. intros [Hu Ha]%andb_prop.
      apply Hno. by rewrite <- is_undefined_true. }
    destruct (negb (checkString v) && negb (checkNumber v)); split; congruence.
Qed.

(** C7 as written fails: the empty string is a string, and a required
    range key that is the empty string is refused. *)
Lemma getRangeKey_rejects_empty_string :
  let this := Example.instance Example.RangeKeyEntity in
  let v := VStr "" in
  let keys := VObj (<["entityId" := v]> {[ "accountId" := VStr "acme" ]}) in
  ~ (typeof v = TString \/ typeof v = TNumber ->
     _getRangeKey this keys (VBool false) = Normal v).
Proof.
  intros this v keys H. specialize (H (or_introl eq_refl)).
  vm_compute in H. discriminate H.
Qed.

(** ** The constructor of Entity *)

Lemma checkFunction_get (o : obj) (m : string) :
  checkFunction (default VUndefined (o !! m)) = true <->
  exists id, o !! m = Some (VFun id).
Proof.
  destruct (o !! m) as [[]|]; cbn; split;
    first [discriminate | by intros (? & [=]) | eauto].
Qed.

Lemma isLoggerValid_total (l : value) :
  exists b, isLoggerValid l = Normal b /\ (b = true <-> valid_logger l).
Proof.
  destruct l as [| | | | |o| |];
    try (exists false; split; [reflexivity|];
         split; [discriminate|by intros (? & [=] & _)]).
  unfold isLoggerValid, LOG_METHODS. cbn.
  pose proof (checkFunction_get o) as Hf.
  assert (forall b, (b = true <-> valid_logger (VObj o)) ->
          exists b', Normal b = Normal b' /\ (b' = true <-> valid_logger (VObj o))) as Hk
    by eauto.
  assert (~ valid_logger (VObj o) ->
          exists b', @Normal bool false = Normal b' /\
                     (b' = true <-> valid_logger (VObj o))) as Hno.
  { intros Hn. exists false. split; [reflexivity|]. split; [discriminate|done]. }
  assert (forall m, m ∈ LOG_METHODS ->
          checkFunction (default VUndefined (o !! m)) = false ->
          ~ valid_logger (VObj o)) as Hbad.
  { intros m Hm Hc (o' & [= <-] & Hall).
    rewrite Forall_forall in Hall. apply Hall in Hm.
    apply Hf in Hm. congruence. }
  repeat match goal with
  | |- context [checkFunction (default VUndefined (o !! ?m))] =>
      let E := fresh "E" in
      destruct (checkFunction (default VUndefined (o !! m))) eqn:E; cbn;
      [ apply Hf in E
      | apply Hno, (Hbad m);
        [repeat first [apply list_elem_of_here | apply list_elem_of_further] | done] ]
  end.
  exists true. split; [reflexivity|]. split; [|done]. intros _.
  exists o. split; [reflexivity|]. unfold LOG_METHODS.
  repeat (apply Forall_cons; split; [assumption|]). apply Forall_nil_2.
Qed.

(** C9, as amended: for every options argument the constructor returns an
    entity and does not throw, provided that the logger library creates a
    default logger for the name of the class when the options hold no
    valid logger, and that the logger in use returns a child.  With [o]
    the copy of the options that the constructor reads, a username that
    is not a string of at least one character is replaced by SYSTEM, a
    logger that is not valid by the default logger created for the class, a
    region that is not such a string and credentials that are not an
    object by undefined; valid entries are kept.  In particular the
    defaults apply to options that are undefined or null. *)
Theorem Entity_new_returns_with_defaults (loggers : Loggers) (cls : EntityClass)
    (options : value) (d : logger) :
  let o := Object_assign ∅ [options] in
  let entity := {[ "entity" := name_value (tableName cls) ]} in
  (~ valid_logger (obj_get o "logger") ->
     getLogger loggers (className cls) ∅ = Normal d) ->
  (forall l, child loggers l entity = Normal (ChildLogger l entity)) ->
  exists this,
    Entity_new loggers cls options = Normal this /\
    class this = cls /\
    _username this
      = (if checkString (obj_get o "username") then obj_get o "username"
         else VStr "SYSTEM") /\
    (valid_logger (obj_get o "logger") ->
       __logger this = ChildLogger (ProvidedLogger (obj_get o "logger")) entity) /\
    (~ valid_logger (obj_get o "logger") ->
       __logger this = ChildLogger d entity) /\
    _awsRegion this
      = (if checkString (obj_get o "awsRegion") then obj_get o "awsRegion"
         else VUndefined) /\
    _awsCredentials this
      = (if checkObject (obj_get o "awsCredentials") then obj_get o "awsCredentials"
         else VUndefined) /\
    (options = VUndefined \/ options = VNull ->
       _username this = VStr "SYSTEM" /\
       __logger this = ChildLogger d entity /\
       _awsRegion this = VUndefined /\
       _awsCredentials this = VUndefined).
Proof.
  intros o entity Hdefault Hchild. unfold Entity_new. fold o. fold entity.
  destruct (isLoggerValid_total (obj_get o "logger")) as (b & -> & Hb).
  cbn [cbind].
  assert (exists l,
            (if b then Normal (ProvidedLogger (obj_get o "logger"))
             else getLogger loggers (className cls) ∅) = Normal l /\
            (valid_logger (obj_get o "logger") ->
               l = ProvidedLogger (obj_get o "logger")) /\
            (~ valid_logger (obj_get o "logger") -> l = d)) as (l & -> & Hl & Hl').
  { destruct b.
    - eexists. split; [reflexivity|]. split; [done|].
      intros Hn. destruct Hn. by apply Hb.
    - assert (~ valid_logger (obj_get o "logger")) as Hn
        by (intros Hv; apply Hb in Hv; discriminate).
      rewrite (Hdefault Hn). eexists. split; [reflexivity|]. split; [|done].
      intros Hv. by destruct Hn. }
  cbn [cbind]. rewrite Hchild. cbn [cbind].
  eexists. split; [reflexivity|]. cbn.
  do 2 (split; [reflexivity|]).
  split; [by intros ->%Hl|]. split; [by intros ->%Hl'|].
  do 2 (split; [reflexivity|]).
  intros Hopt.
  assert (~ valid_logger (obj_get o "logger")) as Hn.
  { intros (l0 & Hl0 & _). revert Hl0. subst o. by destruct Hopt as [->| ->]. }
  rewrite (Hl' Hn). subst o. by destruct Hopt as [->| ->].
Qed.

(** C9 as written fails: for a class without a name and options without
    a valid logger, the logger library refuses to create the default
    logger and the constructor throws. *)
Lemma Entity_new_throws_for_unnamed_class :
  ~ exists this, Entity_new Example.loggers Example.Unnamed VUndefined = Normal this.
Proof. intros [this Hthis]. vm_compute in Hthis. discriminate Hthis. Qed.

(** ** Parameter initialisation *)

Lemma _initParams_inv (this : Entity) (keys operation audit optional : value)
    (params : EntityParams) :
  _initParams this keys operation audit optional = Normal params ->
  exists k, keys = VObj k /\
    _getHashKey this keys = Normal (hashKey params) /\
    _getRangeKey this keys optional = Normal (rangeKey params) /\
    _getUsername this audit = Normal (username params).
Proof.
  unfold _initParams. destruct keys as [| | | | |k| |]; try discriminate.
  cbn [checkObject orThrow cbind].
  destruct (_getHashKey this (VObj k)) as [h|]; [|discriminate].
  destruct (_getRangeKey this (VObj k) optional) as [r|]; [|discriminate].
  destruct (_getUsername this audit) as [u|]; [|discriminate].
  cbn [cbind]. intros [= <-]. cbn. eauto.
Qed.

Lemma _getHashKey_Normal (this : Entity) (k : obj) (h : value) :
  _getHashKey this (VObj k) = Normal h ->
  h = obj_get k (prop_name (hashKeyName (class this))) /\ key_value h.
Proof.
  rewrite _getHashKey_obj. cbv zeta. intros H.
  destruct (negb _ && negb _) eqn:E; [discriminate|].
  injection H as <-. split; [reflexivity|]. by apply key_value_checks.
Qed.

Lemma _getRangeKey_Normal (this : Entity) (k : obj) (optional r : value) :
  _getRangeKey this (VObj k) optional = Normal r ->
  match rangeKeyName (class this) with
  | Some name =>
      r = obj_get k name /\
      (key_value r \/ r = VUndefined /\ truthy optional = true)
  | None => r = VUndefined
  end.
Proof.
  rewrite _getRangeKey_obj.
  destruct (rangeKeyName (class this)) as [name|]; [|by intros [= <-]].
  cbv zeta. destruct (is_undefined _ && truthy optional) eqn:E.
  - intros [= <-]. split; [reflexivity|]. right.
    apply andb_prop in E as [Hu Ht]. by apply is_undefined_true in Hu.
  - destruct (negb _ && negb _) eqn:E'; [discriminate|].
    intros [= <-]. split; [reflexivity|]. left. by apply key_value_checks.
Qed.

(** ** Running a query *)

Section Runs.

Context (env : Env).

(** [_execQuery] hands on what the promisified action settles with: the
    data when the request succeeded, the error as bluebird wraps it when
    it failed. *)
Lemma _execQuery_invoke (this : Entity) (a : action) (c : client)
    (l : option logger) (w : World) :
  let r := {| req_action := a; req_client := c |} in
  _execQuery env this (Callable (invoke env a c)) l w
  = (Normal (match store env (sent w) r with
             | StoreOk data => Fulfilled data
             | StoreErr err => Rejected (StoreError (wrapAsOperationalError err))
             end),
     {| tokens := tokens w;
        clock_reads := S (S (clock_reads w));
        sent := sent w ++ [r] |}).
Proof.
  intros r. unfold _execQuery, bind, now, invoke.
  cbn [tokens clock_reads sent]. fold r.
  destruct (store env (sent w) r); reflexivity.
Qed.

End Runs.

(** ** The operations on valid arguments *)

Section Protocol.

Context (env : Env).

Lemma _getUsername_total (this : Entity) (audit : value) :
  exists u, _getUsername this audit = Normal u.
Proof.
  unfold _getUsername. destruct audit; cbn; eauto.
  destruct (checkString _); cbn; eauto.
Qed.

Lemma yields_initParams (this : Entity) (keys H R operation audit : value) :
  yields this keys H R ->
  exists params,
    _initParams this keys operation audit (SimpleEntity.rangeKeyOptional this)
      = Normal params /\
    hashKey params = H /\ rangeKey params = R /\
    _getUsername this audit = Normal (username params).
Proof.
  intros (Hk & Hh & Hr). destruct (_getUsername_total this audit) as [u Hu].
  unfold _initParams. rewrite Hk, Hh, Hr, Hu. cbn [orThrow cbind].
  eexists. split; [reflexivity|]. by cbn.
Qed.



Lemma yields_defined (this : Entity) (keys H R : value) :
  yields this keys H R -> is_undefined H = false.
Proof.
  intros (Hk & Hh & _). apply checkObject_true in Hk as [k ->].
  apply _getHashKey_Normal in Hh as [_ Hh]. by apply key_value_defined.
Qed.

Lemma wrapAsOperationalError_code (E : error_object) :
  obj_get (own (wrapAsOperationalError E)) "code" = obj_get (own E) "code".
Proof.
  unfold wrapAsOperationalError, obj_get.
  destruct (error_class_of E); [|reflexivity..]. cbn [own].
  destruct (own E !! "code") as [v|] eqn:Hcode.
  - erewrite lookup_union_Some_l; [reflexivity|].
    apply map_lookup_filter_Some. split; [done|]. cbn.
    intros Hin. repeat (apply elem_of_cons in Hin as [Hin|Hin]; [discriminate|]).
    by apply elem_of_nil in Hin.
  - rewrite lookup_union_r.
    + rewrite lookup_insert_ne by done. by rewrite lookup_singleton_ne.
    + apply map_lookup_filter_None. by left.
Qed.




Lemma Object_keys_nonempty (o : obj) :
  Object_keys o <> [] -> (0 <? length (Object_keys o))%nat = true.
Proof. destruct (Object_keys o); [done|reflexivity]. Qed.

Lemma onInsertError_store (err : error_object) (w : World) :
  SimpleEntity.onInsertError (StoreError err) w
  = (Throw (if strict_eq_string (obj_get (own err) "code")
                 "ConditionalCheckFailedException"
            then DuplicateRecordError else StoreError err), w).
Proof.
  unfold SimpleEntity.onInsertError, bind, lift. cbn [error_code].
  by destruct (strict_eq_string _ _).
Qed.

Lemma onWriteError_store (err : error_object) (w : World) :
  SimpleEntity.onWriteError (StoreError err) w
  = (Throw (if strict_eq_string (obj_get (own err) "code")
                 "ConditionalCheckFailedException"
            then ConcurrencyControlError else StoreError err), w).
Proof.
  unfold SimpleEntity.onWriteError, bind, lift. cbn [error_code].
  by destruct (strict_eq_string _ _).
Qed.

Lemma create_run (this : Entity) (keys props audit : value)
    (params : EntityParams) (w : World) :
  checkObject props = true ->
  _initParams this keys (VStr "create") audit (SimpleEntity.rangeKeyOptional this)
    = Normal params ->
  let payload :=
    Object_assign ∅
      [props; keys;
       VObj (<["__updateDate" := VNum (Date_now env (S (clock_reads w)))]>
               (<["__updatedBy" := username params]>
                  (<["__createDate" := VNum (Date_now env (clock_reads w))]>
                     (<["__createdBy" := username params]>
                        (<["__version" := VStr (shortId_generate env (tokens w))]>
                           {[ "__status" := VStr "active" ]})))))] in
  let r := {| req_action := Insert payload;
              req_client := _initClient this VUndefined VUndefined |} in
  SimpleEntity.create env this keys props audit w
  = (Normal (match store env (sent w) r with
             | StoreOk data => Fulfilled data
             | StoreErr err =>
                 Rejected (if strict_eq_string (obj_get (own err) "code")
                                "ConditionalCheckFailedException"
                           then DuplicateRecordError
                           else StoreError (wrapAsOperationalError err))
             end),
     {| tokens := S (tokens w);
        clock_reads := 4 + clock_reads w;
        sent := sent w ++ [r] |}).
Proof.
  intros Hprops Hparams payload r.
  unfold SimpleEntity.create, bind at 1 2 3 4 5 6, lift, shortId, now.
  rewrite Hprops, Hparams. cbn [orThrow tokens clock_reads sent].
  rewrite _execQuery_invoke. cbn [tokens clock_reads sent].
  fold payload. fold r.
  destruct (store env (sent w) r) as [data|err]; cbn [then_ ret settle].
  - reflexivity.
  - unfold settle. by rewrite onInsertError_store, wrapAsOperationalError_code.
Qed.

Lemma lookup_run (this : Entity) (keys audit : value)
    (params : EntityParams) (w : World) :
  _initParams this keys (VStr "lookup") audit (SimpleEntity.rangeKeyOptional this)
    = Normal params ->
  let client :=
    Client.eq (Client.if_ (_initClient this (hashKey params) (rangeKey params))
                          (VStr "__status")) (VStr "active") in
  let r := {| req_action := Get; req_client := client |} in
  SimpleEntity.lookup env this keys audit w
  = (Normal (match store env (sent w) r with
             | StoreOk data => Fulfilled data
             | StoreErr err => Rejected (StoreError (wrapAsOperationalError err))
             end),
     {| tokens := tokens w;
        clock_reads := 2 + clock_reads w;
        sent := sent w ++ [r] |}).
Proof.
  intros Hparams client r.
  destruct (_initParams_inv _ _ _ _ _ _ Hparams) as (k & -> & _).
  unfold SimpleEntity.lookup, bind, lift. rewrite Hparams.
  cbn [checkObject orThrow]. by rewrite _execQuery_invoke.
Qed.

Lemma list_run (this : Entity) (keys count audit : value)
    (params : EntityParams) (w : World) :
  _initParams this keys (VStr "list") audit (VBool true) = Normal params ->
  let client :=
    Client.eq (Client.having (_initClient this (hashKey params) VUndefined)
                             (VStr "__status")) (VStr "active") in
  let client :=
    if negb (is_undefined (rangeKey params)) then
      Client.resume client
        (Converter_input_M env
           (<[prop_name (rangeKeyName (class this)) := rangeKey params]>
              {[ prop_name (hashKeyName (class this)) := hashKey params ]}))
    else client in
  let client := if checkNumber count then Client.limit client count else client in
  let r := {| req_action := Query; req_client := client |} in
  SimpleEntity.list env this keys count audit w
  = (Normal (match store env (sent w) r with
             | StoreOk data => Fulfilled data
             | StoreErr err => Rejected (StoreError (wrapAsOperationalError err))
             end),
     {| tokens := tokens w;
        clock_reads := 2 + clock_reads w;
        sent := sent w ++ [r] |}).
Proof.
  intros Hparams client client' client'' r.
  destruct (_initParams_inv _ _ _ _ _ _ Hparams) as (k & -> & _).
  unfold SimpleEntity.list, bind, lift. rewrite Hparams.
  cbn [checkObject orThrow]. by rewrite _execQuery_invoke.
Qed.

Lemma delete_run (this : Entity) (keys version audit : value)
    (params : EntityParams) (w : World) :
  checkStringMin version 1 = true ->
  _initParams this keys (VStr "delete") audit (SimpleEntity.rangeKeyOptional this)
    = Normal params ->
  let client :=
    Client.eq (Client.if_ (_initClient this (hashKey params) (rangeKey params))
                          (VStr "__status")) (VStr "active") in
  let client := Client.eq (Client.if_ client (VStr "__version")) version in
  let r := {| req_action := Delete; req_client := client |} in
  SimpleEntity.delete env this keys version audit w
  = (Normal (match store env (sent w) r with
             | StoreOk data => Fulfilled data
             | StoreErr err =>
                 Rejected (if strict_eq_string (obj_get (own err) "code")
                                "ConditionalCheckFailedException"
                           then ConcurrencyControlError
                           else StoreError (wrapAsOperationalError err))
             end),
     {| tokens := tokens w;
        clock_reads := 2 + clock_reads w;
        sent := sent w ++ [r] |}).
Proof.
  intros Hversion Hparams client client' r.
  destruct (_initParams_inv _ _ _ _ _ _ Hparams) as (k & -> & _).
  unfold SimpleEntity.delete, bind at 1 2 3 4, lift.
  rewrite Hversion, Hparams. cbn [checkObject orThrow].
  rewrite _execQuery_invoke. cbn [tokens clock_reads sent].
  fold client. fold client'. fold r.
  destruct (store env (sent w) r) as [data|err]; cbn [then_ ret settle].
  - reflexivity.
  - unfold settle. by rewrite onWriteError_store, wrapAsOperationalError_code.
Qed.

Lemma update_run (this : Entity)
    (keys updateProps deleteProps version audit : value)
    (params : EntityParams) (selected : obj) (w : World) :
  checkObject updateProps = true ->
  checkObject deleteProps = true ->
  checkStringMin version 1 = true ->
  _initParams this keys (VStr "update") audit (SimpleEntity.rangeKeyOptional this)
    = Normal params ->
  selection env this updateProps deleteProps = Normal selected ->
  let result :=
    VObj (<["__version" := version]>
            (<["properties" := VArr (VStr <$> Object_keys selected)]>
               {[ "keys" := keys ]})) in
  let client :=
    Client.eq (Client.if_ (_initClient this (hashKey params) (rangeKey params))
                          (VStr "__status")) (VStr "active") in
  let client := Client.eq (Client.if_ client (VStr "__version")) version in
  let client := Client.return_ client (ALL_OLD env) in
  let payload :=
    <["__updateDate" := VNum (Date_now env (clock_reads w))]>
      (<["__updatedBy" := username params]>
         (<["__version" := VStr (shortId_generate env (tokens w))]> selected)) in
  let r := {| req_action := Update payload; req_client := client |} in
  SimpleEntity.update env this keys updateProps deleteProps version audit w
  = if (0 <? length (Object_keys selected))%nat
    then (Normal (match store env (sent w) r with
                  | StoreOk data => Fulfilled result
                  | StoreErr err =>
                      Rejected (if strict_eq_string (obj_get (own err) "code")
                                     "ConditionalCheckFailedException"
                                then ConcurrencyControlError
                                else StoreError (wrapAsOperationalError err))
                  end),
          {| tokens := S (tokens w);
             clock_reads := 3 + clock_reads w;
             sent := sent w ++ [r] |})
    else (Normal (Fulfilled result), w).
Proof.
  intros Hupdate Hdelete Hversion Hparams Hsel result client client' client''
    payload r.
  destruct (_initParams_inv _ _ _ _ _ _ Hparams) as (k & -> & _).
  unfold selection in Hsel.
  destruct (copy (_updateCopier (class this)) updateProps None None)
    as [propsToUpdate|] eqn:Hcopy; [|discriminate].
  cbn [cbind] in Hsel.
  unfold SimpleEntity.update, bind at 1 2 3 4 5 6 7, lift.
  rewrite Hupdate, Hdelete, Hversion, Hparams, Hcopy, Hsel.
  cbn [checkObject orThrow].
  fold result. fold client. fold client'. fold client''.
  destruct (0 <? length (Object_keys selected))%nat; [|reflexivity].
  unfold bind, shortId, now. cbn [tokens clock_reads sent].
  rewrite _execQuery_invoke. cbn [tokens clock_reads sent].
  fold payload. fold r.
  destruct (store env (sent w) r) as [data|err]; cbn [then_ ret settle].
  - reflexivity.
  - unfold settle. by rewrite onWriteError_store, wrapAsOperationalError_code.
Qed.

Lemma update_run_throw (this : Entity)
    (keys updateProps deleteProps version audit : value)
    (params : EntityParams) (e : error) (w : World) :
  checkObject updateProps = true ->
  checkObject deleteProps = true ->
  checkStringMin version 1 = true ->
  _initParams this keys (VStr "update") audit (SimpleEntity.rangeKeyOptional this)
    = Normal params ->
  selection env this updateProps deleteProps = Throw e ->
  SimpleEntity.update env this keys updateProps deleteProps version audit w
  = (Throw e, w).
Proof.
  intros Hupdate Hdelete Hversion Hparams Hsel.
  destruct (_initParams_inv _ _ _ _ _ _ Hparams) as (k & -> & _).
  unfold selection in Hsel.
  unfold SimpleEntity.update, bind at 1 2 3 4 5 6 7, lift.
  rewrite Hupdate, Hdelete, Hversion, Hparams. cbn [checkObject orThrow].
  destruct (copy (_updateCopier (class this)) updateProps None None)
    as [propsToUpdate|]; cbn [cbind] in Hsel.
  - by rewrite Hsel.
  - by injection Hsel as ->.
Qed.

End Protocol.

(** ** update *)

Section Update.

Context (env : Env).

(** The request of an update whose keys yield the hash key [H] and the
    range key [R], with a version [V] of at least one character and a
    selection of fields that is not empty: exactly one update, filtered by
    equality on the hash key (and on the range key when the entity
    declares one), conditioned on [__status] being active and [__version]
    being [V], and returning what the client holds as [ALL_OLD]. *)
Lemma update_request_shape (this : Entity)
    (keys updateProps deleteProps V audit H R : value) (selected : obj) (w : World) :
  yields this keys H R ->
  (forall name, rangeKeyName (class this) = Some name -> key_value R) ->
  checkObject updateProps = true ->
  checkObject deleteProps = true ->
  checkStringMin V 1 = true ->
  selection env this updateProps deleteProps = Normal selected ->
  Object_keys selected <> [] ->
  exists p w' payload c,
    SimpleEntity.update env this keys updateProps deleteProps V audit w
      = (Normal p, w') /\
    sent w' = (sent w ++ [{| req_action := Update payload; req_client := c |}])%list /\
    table c = name_value (tableName (class this)) /\
    whereKey c
      = (name_value (hashKeyName (class this)), H)
        :: match rangeKeyName (class this) with
           | Some name => [(VStr name, R)]
           | None => []
           end /\
    ifFilter c = [(VStr "__status", VStr "active"); (VStr "__version", V)] /\
    havingFilter c = [] /\
    returnValues c = Some (ALL_OLD env).
Proof.
  intros Hy HR Hu Hd HV Hselected Hsel.
  destruct (yields_initParams this keys H R (VStr "update") audit Hy)
    as (params & Hp & <- & <- & _).
  rewrite (update_run env this keys updateProps deleteProps V audit params
             selected w Hu Hd HV Hp Hselected).
  cbv zeta. rewrite (Object_keys_nonempty _ Hsel).
  do 4 eexists. split; [reflexivity|]. split; [reflexivity|].
  pose proof (yields_defined _ _ _ _ Hy) as Hdef.
  destruct Hy as (Hk & _ & Hr). apply checkObject_true in Hk as [k ->].
  apply _getRangeKey_Normal in Hr.
  unfold _initClient. rewrite Hdef. cbn [negb].
  destruct (rangeKeyName (class this)) as [name|].
  - rewrite (key_value_defined _ (HR name eq_refl)). by cbn.
  - rewrite Hr. by cbn.
Qed.

(** C3: when the selection of fields is not empty and the store accepts
    the conditional write, update resolves with the keys, the names of
    the selected fields and the version that the caller supplied, while
    the record is stamped with the newly generated token. *)
Theorem update_resolves_with_input_version (this : Entity)
    (keys updateProps deleteProps V audit H R : value) (selected : obj)
    (w : World) :
  yields this keys H R ->
  checkObject updateProps = true ->
  checkObject deleteProps = true ->
  checkStringMin V 1 = true ->
  selection env this updateProps deleteProps = Normal selected ->
  Object_keys selected <> [] ->
  exists p w' payload c properties,
    SimpleEntity.update env this keys updateProps deleteProps V audit w
      = (Normal p, w') /\
    sent w' = (sent w ++ [{| req_action := Update payload; req_client := c |}])%list /\
    payload !! "__version" = Some (VStr (shortId_generate env (tokens w))) /\
    (forall name, name ∈ properties <-> is_Some (selected !! name)) /\
    NoDup properties /\
    (forall data,
       store env (sent w) {| req_action := Update payload; req_client := c |}
         = StoreOk data ->
       p = Fulfilled
             (VObj (<["__version" := V]>
                      (<["properties" := VArr (VStr <$> properties)]>
                         {[ "keys" := keys ]})))).
Proof.
  intros Hy Hu Hd HV Hselected Hsel.
  destruct (yields_initParams this keys H R (VStr "update") audit Hy)
    as (params & Hp & _).
  rewrite (update_run env this keys updateProps deleteProps V audit params
             selected w Hu Hd HV Hp Hselected).
  cbv zeta. rewrite (Object_keys_nonempty _ Hsel).
  eexists _, _, _, _, (Object_keys selected).
  split; [reflexivity|]. split; [reflexivity|].
  split; [|split; [|split]].
  - rewrite lookup_insert_ne by done. rewrite lookup_insert_ne by done.
    apply lookup_insert_eq.
  - intros name. unfold Object_keys.
    rewrite list_elem_of_fmap. split.
    + intros ([n v] & -> & Hin). apply elem_of_map_to_list in Hin. by eexists.
    + intros [v Hv]. exists (name, v). split; [done|].
      by apply elem_of_map_to_list.
  - apply NoDup_fst_map_to_list.
  - intros data ->. reflexivity.
Qed.

(** C4: when the two copiers select no field, update sends nothing to
    the store and leaves the world as it was, whatever its arguments;
    and when the arguments are valid it resolves with the keys, an
    empty list of properties and the version that the caller supplied. *)
Theorem update_without_fields_sends_nothing (this : Entity)
    (keys updateProps deleteProps version audit : value) (selected : obj)
    (w : World) :
  selection env this updateProps deleteProps = Normal selected ->
  Object_keys selected = [] ->
  (SimpleEntity.update env this keys updateProps deleteProps version audit w).2 = w /\
  (forall H R,
     yields this keys H R ->
     checkObject updateProps = true ->
     checkObject deleteProps = true ->
     checkStringMin version 1 = true ->
     SimpleEntity.update env this keys updateProps deleteProps version audit w
     = (Normal (Fulfilled
          (VObj (<["__version" := version]>
                   (<["properties" := VArr []]> {[ "keys" := keys ]})))), w)).
Proof.
  intros Hselected Hsel. split.
  - destruct (checkObject keys) eqn:Hk;
      [|unfold SimpleEntity.update, bind, lift; by rewrite Hk].
    destruct (checkObject updateProps) eqn:Hu;
      [|unfold SimpleEntity.update, bind, lift; by rewrite Hk, Hu].
    destruct (checkObject deleteProps) eqn:Hd;
      [|unfold SimpleEntity.update, bind, lift; by rewrite Hk, Hu, Hd].
    destruct (checkStringMin version 1) eqn:Hv;
      [|unfold SimpleEntity.update, bind, lift; by rewrite Hk, Hu, Hd, Hv].
    destruct (_initParams this keys (VStr "update") audit
                (SimpleEntity.rangeKeyOptional this)) as [params|e] eqn:Hp;
      [|unfold SimpleEntity.update, bind, lift; by rewrite Hk, Hu, Hd, Hv, Hp].
    rewrite (update_run env this keys updateProps deleteProps version audit
               params selected w Hu Hd Hv Hp Hselected).
    cbv zeta. by rewrite Hsel.
  - intros H R Hy Hu Hd HV.
    destruct (yields_initParams this keys H R (VStr "update") audit Hy)
      as (params & Hp & _).
    rewrite (update_run env this keys updateProps deleteProps version audit
               params selected w Hu Hd HV Hp Hselected).
    cbv zeta. by rewrite Hsel.
Qed.

End Update.

(** ** create *)

Section Create.

Context (env : Env).

Lemma Object_assign_3 (a b c : obj) :
  Object_assign ∅ [VObj a; VObj b; VObj c] = c ∪ (b ∪ a).
Proof. unfold Object_assign. cbn. by rewrite (right_id_L ∅ (∪)). Qed.

Lemma create_sends (this : Entity) (keys props : obj) (audit H R u : value)
    (w : World) :
  yields this (VObj keys) H R ->
  _getUsername this audit = Normal u ->
  let generated : obj :=
    <["__updateDate" := VNum (Date_now env (S (clock_reads w)))]>
      (<["__updatedBy" := u]>
         (<["__createDate" := VNum (Date_now env (clock_reads w))]>
            (<["__createdBy" := u]>
               (<["__version" := VStr (shortId_generate env (tokens w))]>
                  {[ "__status" := VStr "active" ]})))) in
  exists p w',
    SimpleEntity.create env this (VObj keys) (VObj props) audit w = (Normal p, w') /\
    tokens w' = S (tokens w) /\
    sent w' = (sent w ++ [{| req_action := Insert (generated ∪ (keys ∪ props));
                             req_client := _initClient this VUndefined VUndefined |}])%list.
Proof.
  intros Hy Hu generated.
  destruct (yields_initParams this (VObj keys) H R (VStr "create") audit Hy)
    as (params & Hp & _ & _ & Hu').
  rewrite Hu in Hu'. injection Hu' as ->.
  rewrite (create_run env this (VObj keys) (VObj props) audit params w eq_refl Hp).
  cbv zeta. rewrite Object_assign_3. fold generated.
  do 2 eexists. split; [reflexivity|]. split; reflexivity.
Qed.

(** C5, as amended: for a create call with valid keys and props, the
    payload of the single insert request is the merge of props and keys,
    overwritten with [__status] active, [__version] the newly generated
    token, [__createdBy] and [__updatedBy] the resolved username,
    [__createDate] the reading of the clock taken first and
    [__updateDate] the reading of the clock taken after it; the two
    dates come from two readings of the clock. *)
Theorem create_payload (this : Entity) (keys props : obj) (audit H R u : value)
    (w : World) :
  yields this (VObj keys) H R ->
  _getUsername this audit = Normal u ->
  exists p w' payload c,
    SimpleEntity.create env this (VObj keys) (VObj props) audit w = (Normal p, w') /\
    tokens w' = S (tokens w) /\
    sent w' = (sent w ++ [{| req_action := Insert payload; req_client := c |}])%list /\
    payload
      = <["__updateDate" := VNum (Date_now env (S (clock_reads w)))]>
          (<["__updatedBy" := u]>
             (<["__createDate" := VNum (Date_now env (clock_reads w))]>
                (<["__createdBy" := u]>
                   (<["__version" := VStr (shortId_generate env (tokens w))]>
                      (<["__status" := VStr "active"]> (keys ∪ props)))))).
Proof.
  intros Hy Hu.
  destruct (create_sends this keys props audit H R u w Hy Hu)
    as (p & w' & Hrun & Htok & Hsent).
  exists p, w'. do 2 eexists. split; [exact Hrun|]. split; [exact Htok|].
  split; [exact Hsent|].
  rewrite <- !insert_union_l. by rewrite <- insert_union_singleton_l.
Qed.

(** C10: in the payload of create the six generated fields hold the
    generated values whatever props and keys say about them, every other
    field that keys defines holds the value of keys, and the remaining
    fields hold what props says. *)
Theorem create_precedence (this : Entity) (keys props : obj) (audit H R u : value)
    (w : World) :
  yields this (VObj keys) H R ->
  _getUsername this audit = Normal u ->
  exists p w' payload c,
    SimpleEntity.create env this (VObj keys) (VObj props) audit w = (Normal p, w') /\
    sent w' = (sent w ++ [{| req_action := Insert payload; req_client := c |}])%list /\
    payload !! "__status" = Some (VStr "active") /\
    payload !! "__version" = Some (VStr (shortId_generate env (tokens w))) /\
    payload !! "__createdBy" = Some u /\
    payload !! "__createDate" = Some (VNum (Date_now env (clock_reads w))) /\
    payload !! "__updatedBy" = Some u /\
    payload !! "__updateDate" = Some (VNum (Date_now env (S (clock_reads w)))) /\
    (forall name v, name ∉ reserved_fields ->
       keys !! name = Some v -> payload !! name = Some v) /\
    (forall name, name ∉ reserved_fields ->
       keys !! name = None -> payload !! name = props !! name).
Proof.
  intros Hy Hu.
  destruct (create_sends this keys props audit H R u w Hy Hu)
    as (p & w' & Hrun & _ & Hsent).
  exists p, w'. do 2 eexists. split; [exact Hrun|]. split; [exact Hsent|].
  assert (forall name, name ∉ reserved_fields ->
          forall m : obj,
            (<["__updateDate" := VNum (Date_now env (S (clock_reads w)))]>
               (<["__updatedBy" := u]>
                  (<["__createDate" := VNum (Date_now env (clock_reads w))]>
                     (<["__createdBy" := u]>
                        (<["__version" := VStr (shortId_generate env (tokens w))]>
                           {[ "__status" := VStr "active" ]})))) ∪ m) !! name
            = m !! name) as Hother.
  { intros name Hname m. unfold reserved_fields in Hname.
    apply lookup_union_r.
    repeat (rewrite lookup_insert_ne
              by (intros <-; apply Hname;
                  repeat first [apply list_elem_of_here | apply list_elem_of_further])).
    apply lookup_singleton_ne.
    intros <-; apply Hname;
      repeat first [apply list_elem_of_here | apply list_elem_of_further]. }
  repeat split.
  - apply lookup_union_Some_l. by simplify_map_eq.
  - apply lookup_union_Some_l. by simplify_map_eq.
  - apply lookup_union_Some_l. by simplify_map_eq.
  - apply lookup_union_Some_l. by simplify_map_eq.
  - apply lookup_union_Some_l. by simplify_map_eq.
  - apply lookup_union_Some_l. by simplify_map_eq.
  - intros name v Hname Hv. rewrite Hother by done.
    by apply lookup_union_Some_l.
  - intros name Hname Hv. rewrite Hother by done.
    by apply lookup_union_r.
Qed.

End Create.

(** ** Errors of the store *)

Section StoreErrors.

Context (env : Env).



End StoreErrors.

(** ** list *)

Section List.

Context (env : Env).

Lemma _initParams_Throw (this : Entity) (keys : obj)
    (operation audit optional : value) (e : error) :
  _initParams this (VObj keys) operation audit optional = Throw e ->
  ~ key_value (obj_get keys (prop_name (hashKeyName (class this)))) \/
  exists name, rangeKeyName (class this) = Some name /\
               ~ key_value (obj_get keys name).
Proof.
  unfold _initParams. cbn [checkObject orThrow cbind].
  rewrite _getHashKey_obj, _getRangeKey_obj. cbv zeta.
  destruct (negb _ && negb _) eqn:Eh.
  { intros _. left. rewrite key_value_checks. congruence. }
  cbn [cbind]. destruct (rangeKeyName (class this)) as [name|].
  - destruct (is_undefined _ && truthy optional) eqn:Eu.
    + cbn [cbind]. destruct (_getUsername_total this audit) as [u ->]. discriminate.
    + destruct (negb (checkString (obj_get keys name)) && _) eqn:Er.
      * intros _. right. exists name. split; [done|].
        rewrite key_value_checks. congruence.
      * cbn [cbind]. destruct (_getUsername_total this audit) as [u ->]. discriminate.
  - cbn [cbind]. destruct (_getUsername_total this audit) as [u ->]. discriminate.
Qed.

Lemma exclusiveStartKey_eq (c : client) (v : value) :
  exclusiveStartKey (Client.eq c v) = exclusiveStartKey c.
Proof. unfold Client.eq. by destruct (pending c) as [[[] ?]|]. Qed.

Lemma exclusiveStartKey_initClient (this : Entity) (h r : value) :
  exclusiveStartKey (_initClient this h r) = None.
Proof.
  unfold _initClient.
  destruct (negb (is_undefined h)), (negb (is_undefined r));
    by rewrite ?exclusiveStartKey_eq.
Qed.

Lemma exclusiveStartKey_limit (c : client) (count : value) :
  exclusiveStartKey (if checkNumber count then Client.limit c count else c)
  = exclusiveStartKey c.
Proof. by destruct (checkNumber count). Qed.

(** C8: a list call on an entity that declares a range-key field either
    fails the validation of its keys, and then sends nothing, or sends
    exactly one query; that query carries as resume cursor the encoding
    of the mapping of the hash-key field to the hash key and of the
    range-key field to the range key when the keys hold a defined range
    key, and carries no resume cursor when the range key is undefined or
    absent. *)
Theorem list_resume_cursor (this : Entity) (rangeKeyField : string) (keys : obj)
    (count audit : value) (w : World) :
  rangeKeyName (class this) = Some rangeKeyField ->
  let hashKeyField := prop_name (hashKeyName (class this)) in
  let hashKey := obj_get keys hashKeyField in
  let rangeKey := obj_get keys rangeKeyField in
  match SimpleEntity.list env this (VObj keys) count audit w with
  | (Throw e, w') =>
      w' = w /\ (~ key_value hashKey \/ ~ key_value rangeKey)
  | (Normal p, w') =>
      exists c,
        sent w' = (sent w ++ [{| req_action := Query; req_client := c |}])%list /\
        (rangeKey <> VUndefined ->
           exclusiveStartKey c
           = Some (Converter_input_M env
                     (<[rangeKeyField := rangeKey]> {[ hashKeyField := hashKey ]}))) /\
        (rangeKey = VUndefined -> exclusiveStartKey c = None)
  end.
Proof.
  intros Hrk hashKeyField hashKey rangeKey.
  destruct (_initParams this (VObj keys) (VStr "list") audit (VBool true))
    as [params|e] eqn:Hp.
  - rewrite (list_run env _ _ _ _ _ w Hp). cbv zeta.
    apply _initParams_inv in Hp as (k & [= <-] & Hh & Hr & _).
    apply _getHashKey_Normal in Hh as [Hh _].
    apply _getRangeKey_Normal in Hr. rewrite Hrk in Hr. destruct Hr as [Hr _].
    fold hashKeyField in Hh. fold hashKey in Hh. fold rangeKey in Hr.
    rewrite Hh, Hr, Hrk. cbn [prop_name]. fold hashKeyField.
    eexists. split; [reflexivity|]. rewrite exclusiveStartKey_limit.
    destruct (is_undefined rangeKey) eqn:Hu; cbn [negb].
    + apply is_undefined_true in Hu.
      split; [done|]. intros _.
      rewrite exclusiveStartKey_eq. unfold Client.having, Client.set_pending.
      cbn [exclusiveStartKey]. apply exclusiveStartKey_initClient.
    + split; [done|]. intros Hundef. rewrite Hundef in Hu. discriminate.
  - unfold SimpleEntity.list, bind, lift. rewrite Hp. cbn [checkObject orThrow].
    split; [reflexivity|].
    apply _initParams_Throw in Hp as [Hh|(name & Hname & Hr)]; [by left|].
    right. rewrite Hrk in Hname. by injection Hname as <-.
Qed.

End List.

(** ** The code on the inputs of the unit tests *)

Example getHashKey_number :
  _getHashKey (Example.instance Example.HashKeyEntity)
              (VObj {[ "accountId" := VNum 123 ]}) = Normal (VNum 123).
Proof. reflexivity. Qed.

Example getHashKey_zero :
  _getHashKey (Example.instance Example.HashKeyEntity)
              (VObj {[ "accountId" := VNum 0 ]})
  = Throw (ArgError "Invalid hash key (keys.accountId)").
Proof. reflexivity. Qed.

Example getHashKey_absent :
  _getHashKey (Example.instance Example.HashKeyEntity) (VObj ∅)
  = Throw (ArgError "Invalid hash key (keys.accountId)").
Proof. reflexivity. Qed.

Example getHashKey_without_a_field_name :
  _getHashKey (Example.instance Entity_class) (VObj {[ "undefined" := VStr "x" ]})
  = Normal (VStr "x").
Proof. reflexivity. Qed.

Example default_copier_selects_nothing :
  selection (Example.env (StoreOk VNull)) (Example.instance Entity_class)
            Example.updateProps Example.deleteProps = Normal ∅.
Proof. reflexivity. Qed.

Example copiers_select_listed_fields :
  selection (Example.mock (StoreOk VNull)) (Example.instance Example.RangeKeyEntity)
            Example.updateProps Example.deleteProps
  = Normal (<["prop3" := VStr "_DEL"]> {[ "prop1" := VStr "new" ]}).
Proof. vm_compute. reflexivity. Qed.

Example deleting_a_field_calls_del :
  selection (Example.env (StoreOk VNull)) (Example.instance Example.RangeKeyEntity)
            Example.updateProps Example.deleteProps
  = Throw (TypeError "client.del is not a function").
Proof. vm_compute. reflexivity. Qed.

Example getRangeKey_not_declared :
  _getRangeKey (Example.instance Example.HashKeyEntity)
               (VObj {[ "entityId" := VNull ]}) (VBool false) = Normal VUndefined.
Proof. reflexivity. Qed.

Example getRangeKey_optional :
  _getRangeKey (Example.instance Example.RangeKeyEntity)
               Example.hashOnlyKeys (VBool true) = Normal VUndefined.
Proof. reflexivity. Qed.

Example getRangeKey_required :
  _getRangeKey (Example.instance Example.RangeKeyEntity)
               Example.hashOnlyKeys (VBool false)
  = Throw (ArgError "Invalid range key (keys.entityId)").
Proof. reflexivity. Qed.

Example getRangeKey_null_is_refused :
  _getRangeKey (Example.instance Example.RangeKeyEntity)
               (VObj (<["entityId" := VNull]> {[ "accountId" := VStr "acme" ]}))
               (VBool true)
  = Throw (ArgError "Invalid range key (keys.entityId)").
Proof. reflexivity. Qed.

Example Entity_new_without_options :
  Entity_new Example.loggers Example.RangeKeyEntity VUndefined
  = Normal (Example.instance Example.RangeKeyEntity).
Proof. reflexivity. Qed.

Example Entity_new_with_a_number :
  Entity_new Example.loggers Example.RangeKeyEntity (VNum 42)
  = Normal (Example.instance Example.RangeKeyEntity).
Proof. reflexivity. Qed.

Example update_rejects_an_empty_version :
  SimpleEntity.update (Example.env (StoreOk VNull))
    (Example.instance Example.RangeKeyEntity) Example.keys Example.updateProps
    Example.deleteProps (VStr "") VUndefined Example.world
  = (Throw (ArgError "Invalid version (arg #4)"), Example.world).
Proof. reflexivity. Qed.

Example list_with_count_and_range_key :
  exists p w' c,
    SimpleEntity.list (Example.env (StoreOk (VArr [])))
      (Example.instance Example.RangeKeyEntity) Example.keys (VNum 10) VUndefined
      Example.world = (Normal p, w') /\
    p = Fulfilled (VArr []) /\
    sent w' = [{| req_action := Query; req_client := c |}] /\
    whereKey c = [(VStr "accountId", VStr "acme")] /\
    havingFilter c = [(VStr "__status", VStr "active")] /\
    exclusiveStartKey c
    = Some (VObj (<["entityId" := VStr "e1"]> {[ "accountId" := VStr "acme" ]})) /\
    limitValue c = Some (VNum 10).
Proof. do 3 eexists. vm_compute. repeat split. Qed.

Example execQuery_refuses_what_is_not_a_function :
  _execQuery (Example.env (StoreOk VNull)) (Example.instance Example.RangeKeyEntity)
    (NotCallable (VStr "query")) None Example.world
  = (Throw (ArgError "Invalid query (arg #1)"), Example.world).
Proof. reflexivity. Qed.

Example execQuery_on_a_rejection_with_undefined :
  exists message,
    _execQuery (Example.env (StoreOk VNull)) (Example.instance Example.RangeKeyEntity)
      (Callable (ret (Rejected (Thrown VUndefined)))) None Example.world
    = (Normal (Rejected (TypeError message)),
       {| tokens := 0; clock_reads := 1; sent := [] |}).
Proof. eexists. reflexivity. Qed.

Example create_on_an_existing_record :
  (SimpleEntity.create (Example.env (StoreErr Example.conditionalCheckFailed))
     (Example.instance Example.RangeKeyEntity) Example.keys Example.props VUndefined
     Example.world).1
  = Normal (Rejected DuplicateRecordError).
Proof. vm_compute. reflexivity. Qed.

Example delete_when_timed_out :
  (SimpleEntity.delete (Example.env (StoreErr Example.timeout))
     (Example.instance Example.RangeKeyEntity) Example.keys (VStr "v1") VUndefined
     Example.world).1
  = Normal (Rejected (StoreError Example.timeout)).
Proof. vm_compute. reflexivity. Qed.

(** ** The statements on the entities of the unit tests *)

Lemma example_yields :
  yields (Example.instance Example.RangeKeyEntity) Example.keys
         (VStr "acme") (VStr "e1").
Proof. repeat split. Qed.

Lemma example_key_value (s : string) : s <> "" -> key_value (VStr s).
Proof. intros Hs. left. by exists s. Qed.

Lemma Entity_new_returns_with_defaults_example :
  exists this,
    Entity_new Example.loggers Example.RangeKeyEntity VNull = Normal this /\
    _username this = VStr "SYSTEM" /\
    __logger this
      = ChildLogger (DefaultLogger "RangeKeyEntity" ∅)
                    {[ "entity" := VStr "range_key_table" ]} /\
    _awsRegion this = VUndefined /\
    _awsCredentials this = VUndefined.
Proof.
  destruct (Entity_new_returns_with_defaults Example.loggers
              Example.RangeKeyEntity VNull (DefaultLogger "RangeKeyEntity" ∅))
    as (this & Hnew & _ & _ & _ & _ & _ & _ & Hdefaults).
  - intros _. reflexivity.
  - intros l. reflexivity.
  - exists this. split; [exact Hnew|]. apply Hdefaults. by right.
Defined.

(** C5 as written fails: the two dates are two readings of the clock, and
    they differ as soon as the clock advances between the readings. *)
Lemma create_dates_differ :
  let env := Example.env (StoreOk VNull) in
  let this := Example.instance Example.RangeKeyEntity in
  exists p w' payload c,
    SimpleEntity.create env this Example.keys Example.props VUndefined Example.world
      = (Normal p, w') /\
    sent w' = [{| req_action := Insert payload; req_client := c |}] /\
    payload !! "__createDate" = Some (VNum 1700000000000) /\
    payload !! "__updateDate" = Some (VNum 1700000000001) /\
    payload !! "__createDate" <> payload !! "__updateDate".
Proof.
  intros env this.
  destruct (create_sends env this _ {[ "tag" := VStr "x" ]} VUndefined
              (VStr "acme") (VStr "e1") (VStr "SYSTEM") Example.world
              example_yields eq_refl)
    as (p & w' & Hrun & _ & Hsent).
  exists p, w'. do 2 eexists. split; [exact Hrun|]. split; [exact Hsent|].
  split; [vm_compute; reflexivity|]. split; [vm_compute; reflexivity|].
  vm_compute. intros [=].
Qed.

(** C1 fails on the client that [table()] of the library returns, which
    holds neither [ALL_OLD] nor [del]: an update that deletes no field
    sends its one request, filtered on the keys and conditioned on the
    status and the version, but asks to return [undefined], not the prior
    image; an update that deletes a field throws a TypeError and sends
    nothing.  On the client of the unit tests, which holds a [del], the
    update that deletes a field sends its request, and asks to return
    what that client holds as [ALL_OLD], which is [undefined] as well. *)
Theorem update_does_not_request_the_prior_image :
  let this := Example.instance Example.RangeKeyEntity in
  (exists p w' payload c,
     SimpleEntity.update (Example.env (StoreOk VNull)) this Example.keys
       Example.updateProps Example.noProps (VStr "v1") VUndefined Example.world
     = (Normal p, w') /\
     sent w' = [{| req_action := Update payload; req_client := c |}] /\
     whereKey c = [(VStr "accountId", VStr "acme"); (VStr "entityId", VStr "e1")] /\
     ifFilter c = [(VStr "__status", VStr "active"); (VStr "__version", VStr "v1")] /\
     returnValues c = Some VUndefined) /\
  SimpleEntity.update (Example.env (StoreOk VNull)) this Example.keys
    Example.updateProps Example.deleteProps (VStr "v1") VUndefined Example.world
  = (Throw (TypeError "client.del is not a function"), Example.world) /\
  (exists p w' payload c,
     SimpleEntity.update (Example.mock (StoreOk VNull)) this Example.keys
       Example.updateProps Example.deleteProps (VStr "v1") VUndefined Example.world
     = (Normal p, w') /\
     sent w' = [{| req_action := Update payload; req_client := c |}] /\
     returnValues c = Some VUndefined).
Proof.
  intros this.
  destruct (yields_initParams this Example.keys (VStr "acme") (VStr "e1")
              (VStr "update") VUndefined example_yields) as (params & Hp & _).
  split; [|split].
  - clear Hp.
    destruct (update_request_shape (Example.env (StoreOk VNull)) this
                Example.keys Example.updateProps Example.noProps (VStr "v1")
                VUndefined (VStr "acme") (VStr "e1") {[ "prop1" := VStr "new" ]}
                Example.world)
      as (p & w' & payload & c & Hrun & Hsent & _ & Hwhere & Hif & _ & Hret).
    + exact example_yields.
    + intros name _. by apply example_key_value.
    + reflexivity.
    + reflexivity.
    + reflexivity.
    + vm_compute. reflexivity.
    + vm_compute. discriminate.
    + exists p, w', payload, c.
      split; [exact Hrun|]. split; [exact Hsent|]. split; [exact Hwhere|].
      split; [exact Hif|exact Hret].
  - apply (update_run_throw _ this _ _ _ _ _ params);
      first [exact Hp | reflexivity].
  - destruct (update_request_shape (Example.mock (StoreOk VNull)) this
                Example.keys Example.updateProps Example.deleteProps (VStr "v1")
                VUndefined (VStr "acme") (VStr "e1")
                (<["prop3" := VStr "_DEL"]> {[ "prop1" := VStr "new" ]})
                Example.world)
      as (p & w' & payload & c & Hrun & Hsent & _ & _ & _ & _ & Hret).
    + exact example_yields.
    + intros name _. by apply example_key_value.
    + reflexivity.
    + reflexivity.
    + reflexivity.
    + vm_compute. reflexivity.
    + vm_compute. discriminate.
    + exists p, w', payload, c.
      split; [exact Hrun|]. split; [exact Hsent|exact Hret].
Qed.

Lemma update_resolves_with_input_version_example :
  let env := Example.env (StoreOk VNull) in
  let this := Example.instance Example.RangeKeyEntity in
  let selected : obj := {[ "prop1" := VStr "new" ]} in
  exists p w' payload c properties,
    SimpleEntity.update env this Example.keys Example.updateProps
      Example.noProps (VStr "v1") VUndefined Example.world = (Normal p, w') /\
    sent w' = [{| req_action := Update payload; req_client := c |}] /\
    payload !! "__version" = Some (VStr "token-0") /\
    (forall name, name ∈ properties <-> is_Some (selected !! name)) /\
    NoDup properties /\
    (forall data,
       StoreOk VNull = StoreOk data ->
       p = Fulfilled
             (VObj (<["__version" := VStr "v1"]>
                      (<["properties" := VArr (VStr <$> properties)]>
                         {[ "keys" := Example.keys ]})))).
Proof.
  intros env this selected.
  apply (update_resolves_with_input_version env this Example.keys
           Example.updateProps Example.noProps (VStr "v1") VUndefined
           (VStr "acme") (VStr "e1") selected Example.world).
  - exact example_yields.
  - reflexivity.
  - reflexivity.
  - reflexivity.
  - vm_compute. reflexivity.
  - vm_compute. discriminate.
Defined.

Lemma update_without_fields_sends_nothing_example :
  let env := Example.env (StoreOk VNull) in
  let this := Example.instance Example.RangeKeyEntity in
  let run :=
    SimpleEntity.update env this Example.keys (VObj {[ "other" := VNum 7 ]})
      (VObj ∅) (VStr "v1") VUndefined Example.world in
  run.2 = Example.world /\
  (forall H R,
     yields this Example.keys H R ->
     checkObject (VObj {[ "other" := VNum 7 ]}) = true ->
     checkObject (VObj ∅) = true ->
     checkStringMin (VStr "v1") 1 = true ->
     run = (Normal (Fulfilled
              (VObj (<["__version" := VStr "v1"]>
                       (<["properties" := VArr []]> {[ "keys" := Example.keys ]})))),
            Example.world)).
Proof.
  intros env this run.
  apply (update_without_fields_sends_nothing env this Example.keys
           (VObj {[ "other" := VNum 7 ]}) (VObj ∅) (VStr "v1") VUndefined ∅
           Example.world).
  - vm_compute. reflexivity.
  - reflexivity.
Defined.

Lemma create_payload_example :
  let env := Example.env (StoreOk VNull) in
  let this := Example.instance Example.RangeKeyEntity in
  exists p w' payload c,
    SimpleEntity.create env this Example.keys Example.props VUndefined Example.world
      = (Normal p, w') /\
    tokens w' = 1%nat /\
    sent w' = [{| req_action := Insert payload; req_client := c |}] /\
    payload
      = <["__updateDate" := VNum 1700000000001]>
          (<["__updatedBy" := VStr "SYSTEM"]>
             (<["__createDate" := VNum 1700000000000]>
                (<["__createdBy" := VStr "SYSTEM"]>
                   (<["__version" := VStr "token-0"]>
                      (<["__status" := VStr "active"]>
                         (<["entityId" := VStr "e1"]>
                            (<["accountId" := VStr "acme"]>
                               {[ "tag" := VStr "x" ]}))))))).
Proof.
  intros env this.
  pose proof (create_payload env this
                (<["entityId" := VStr "e1"]> {[ "accountId" := VStr "acme" ]})
                {[ "tag" := VStr "x" ]} VUndefined (VStr "acme") (VStr "e1")
                (VStr "SYSTEM") Example.world example_yields eq_refl) as Hrun.
  vm_compute in Hrun. vm_compute. exact Hrun.
Defined.

Lemma create_precedence_example :
  let env := Example.env (StoreOk VNull) in
  let this := Example.instance Example.RangeKeyEntity in
  let keys : obj :=
    <["__status" := VStr "deleted"]>
      (<["tag" := VStr "from keys"]>
         (<["entityId" := VStr "e1"]> {[ "accountId" := VStr "acme" ]})) in
  let props : obj :=
    <["__version" := VStr "mine"]>
      (<["colour" := VStr "red"]> {[ "tag" := VStr "from props" ]}) in
  exists p w' payload c,
    SimpleEntity.create env this (VObj keys) (VObj props) VUndefined Example.world
      = (Normal p, w') /\
    sent w' = (sent Example.world
                 ++ [{| req_action := Insert payload; req_client := c |}])%list /\
    payload !! "__status" = Some (VStr "active") /\
    payload !! "__version" = Some (VStr (shortId_generate env 0)) /\
    payload !! "__createdBy" = Some (VStr "SYSTEM") /\
    payload !! "__createDate" = Some (VNum (Date_now env 0)) /\
    payload !! "__updatedBy" = Some (VStr "SYSTEM") /\
    payload !! "__updateDate" = Some (VNum (Date_now env 1)) /\
    (forall name v, name ∉ reserved_fields ->
       keys !! name = Some v -> payload !! name = Some v) /\
    (forall name, name ∉ reserved_fields ->
       keys !! name = None -> payload !! name = props !! name).
Proof.
  intros env this keys props.
  apply (create_precedence env this keys props VUndefined (VStr "acme") (VStr "e1")
           (VStr "SYSTEM") Example.world).
  - repeat split.
  - reflexivity.
Defined.



Lemma list_resume_cursor_example :
  let env := Example.env (StoreOk (VArr [])) in
  let this := Example.instance Example.RangeKeyEntity in
  let keys : obj := <["entityId" := VStr "e1"]> {[ "accountId" := VStr "acme" ]} in
  match SimpleEntity.list env this (VObj keys) (VNum 10) VUndefined Example.world with
  | (Throw e, w') =>
      w' = Example.world /\
      (~ key_value (obj_get keys "accountId") \/ ~ key_value (obj_get keys "entityId"))
  | (Normal p, w') =>
      exists c,
        sent w' = (sent Example.world
                     ++ [{| req_action := Query; req_client := c |}])%list /\
        (obj_get keys "entityId" <> VUndefined ->
           exclusiveStartKey c
           = Some (Converter_input_M env
                     (<["entityId" := obj_get keys "entityId"]>
                        {[ "accountId" := obj_get keys "accountId" ]}))) /\
        (obj_get keys "entityId" = VUndefined -> exclusiveStartKey c = None)
  end.
Proof.
  intros env this keys.
  exact (list_resume_cursor env this "entityId" keys (VNum 10) VUndefined
           Example.world eq_refl).
Defined.

(** * Further properties of the code *)

(** ** Entity._getUsername *)

(** X1: [_getUsername] never throws: it returns the username of the audit
    object when the audit is an object whose username is a string of at
    least one character, and the username of the entity in every other
    case, also for an audit that is undefined or null. *)
Theorem getUsername_resolution (this : Entity) (audit : value) :
  exists u,
    _getUsername this audit = Normal u /\
    (forall o s, audit = VObj o -> o !! "username" = Some (VStr s) -> s <> "" ->
       u = VStr s) /\
    ((forall o s, audit = VObj o -> o !! "username" = Some (VStr s) -> s = "") ->
       u = _username this).
Proof.
  unfold _getUsername.
  destruct audit as [| | | | |o| |];
    try (eexists; split; [reflexivity|]; split; [by intros ?? [=]|done]).
  cbn [checkObject negb get_prop cbind].
  destruct (checkString (default VUndefined (o !! "username"))) eqn:Hc; cbn [negb];
    (eexists; split; [reflexivity|]); split.
  - intros o' s [= <-] Hs _. by rewrite Hs.
  - intros Hno. apply checkString_true in Hc as (s & Hv & Hs).
    destruct (o !! "username") as [v|] eqn:Hu; [|discriminate].
    cbn in Hv. subst v. destruct Hs. by eapply Hno.
  - intros o' s [= <-] Hs Hne. rewrite Hs in Hc.
    assert (checkString (VStr s) = true) as Hc' by (apply checkString_true; eauto).
    cbn in Hc, Hc'. congruence.
  - done.
Qed.

(** X2: The username that an entity built by the constructor resolves is
    always a string of at least one character, whatever the options of the
    constructor and whatever the audit of the call. *)
Theorem constructed_entity_resolves_a_username (loggers : Loggers)
    (cls : EntityClass) (options audit : value) (this : Entity) :
  Entity_new loggers cls options = Normal this ->
  exists s, _getUsername this audit = Normal (VStr s) /\ s <> "".
Proof.
  intros Hnew.
  assert (exists s, _username this = VStr s /\ s <> "") as (d & Hd & Hd').
  { unfold Entity_new in Hnew.
    destruct (isLoggerValid_total (obj_get (Object_assign ∅ [options]) "logger"))
      as (b & Hb & _).
    rewrite Hb in Hnew. cbn [cbind] in Hnew.
    destruct (if b then _ else _) as [l|]; [|discriminate]. cbn [cbind] in Hnew.
    destruct (child loggers l _) as [c|]; [|discriminate]. cbn [cbind] in Hnew.
    injection Hnew as <-.
    cbn [_username]. destruct (checkString _) eqn:Hc.
    - by apply checkString_true in Hc.
    - by exists "SYSTEM". }
  unfold _getUsername. destruct (checkObject audit) eqn:Ha; cbn [negb].
  - apply checkObject_true in Ha as [o ->]. cbn [get_prop cbind].
    destruct (checkString _) eqn:Hc; cbn [negb].
    + apply checkString_true in Hc as (s & -> & Hs). eauto.
    + rewrite Hd. eauto.
  - rewrite Hd. eauto.
Qed.

(** ** Entity._initParams *)

(** X3: [_initParams] checks its arguments in a fixed order and reports the
    first one that fails: keys that are not an object, then a hash key
    that is not a key value, then a range key that does not pass; when all
    three pass it returns the two keys as the keys object holds them and
    a logger that is a child of the logger of the entity. *)
Theorem initParams_outcome (this : Entity) (keys operation audit optional : value) :
  let r := _initParams this keys operation audit optional in
  (checkObject keys = false -> r = Throw (ArgError "Invalid keys (arg #1)")) /\
  (forall k, keys = VObj k ->
     let hashKeyField := prop_name (hashKeyName (class this)) in
     (~ key_value (obj_get k hashKeyField) ->
        r = Throw (ArgError ("Invalid hash key (keys." +:+ hashKeyField +:+ ")"))) /\
     (key_value (obj_get k hashKeyField) -> ~ range_key_passes this k optional ->
        exists name, rangeKeyName (class this) = Some name /\
          r = Throw (ArgError ("Invalid range key (keys." +:+ name +:+ ")"))) /\
     (key_value (obj_get k hashKeyField) -> range_key_passes this k optional ->
        exists params,
          r = Normal params /\
          hashKey params = obj_get k hashKeyField /\
          rangeKey params = range_key_of this k /\
          _getUsername this audit = Normal (username params) /\
          exists fields,
            params_logger params = ChildLogger (__logger this) fields /\
            fields !! "operation" = Some operation /\
            fields !! "hashKey" = Some (hashKey params) /\
            fields !! "rangeKey" = Some (rangeKey params) /\
            fields !! "username" = Some (username params))).
Proof.
  intros r. subst r. split.
  - unfold _initParams. by intros ->.
  - intros k -> hashKeyField. unfold _initParams.
    cbn [checkObject orThrow cbind].
    rewrite _getHashKey_obj, _getRangeKey_obj. cbv zeta. fold hashKeyField.
    unfold range_key_passes, range_key_of.
    rewrite (key_value_checks (obj_get k hashKeyField)).
    destruct (negb (checkString (obj_get k hashKeyField)) && _) eqn:Eh.
    { split; [done|]. split; intros; congruence. }
    cbn [cbind]. split; [congruence|].
    destruct (_getUsername_total this audit) as [u Hu].
    destruct (rangeKeyName (class this)) as [name|].
    + rewrite (key_value_checks (obj_get k name)).
      destruct (is_undefined (obj_get k name) && truthy optional) eqn:Eu.
      * apply andb_prop in Eu as [Eu Et]. apply is_undefined_true in Eu.
        split; [intros _ Hno; destruct Hno; by right|].
        intros _ _. rewrite Hu. cbn [cbind]. eexists. split; [reflexivity|].
        cbn. repeat split; try done. eexists. split; [reflexivity|].
        by simplify_map_eq.
      * destruct (negb (checkString (obj_get k name)) && _) eqn:Er.
        -- split; [intros _ _; eauto|].
           intros _ [Hk|[Hundef Ht]]; [congruence|].
           rewrite Hundef, Ht in Eu. discriminate.
        -- split; [intros _ Hno; destruct Hno; by left|].
           intros _ _. cbn [cbind]. rewrite Hu. cbn [cbind].
           eexists. split; [reflexivity|].
           cbn. repeat split; try done. eexists. split; [reflexivity|].
           by simplify_map_eq.
    + split; [by intros _ Hno|]. intros _ _. cbn [cbind]. rewrite Hu. cbn [cbind].
      eexists. split; [reflexivity|].
      cbn. repeat split; try done. eexists. split; [reflexivity|].
      by simplify_map_eq.
Qed.

(** ** Entity._initClient and Entity._execQuery *)

Section Base.

Context (env : Env).

(** X4: [_initClient] never fails and binds the client to the table, the
    region and the credentials of the entity; it filters on the hash key
    only when a hash key is given and on the range key only when a range
    key is given, and it sets no condition, no limit and no cursor.  Without
    arguments the client filters nothing. *)
Theorem initClient_filters_defined_keys (this : Entity) (H R : value) :
  let c := _initClient this H R in
  table c = name_value (tableName (class this)) /\
  region c = _awsRegion this /\
  credentials c = _awsCredentials this /\
  whereKey c
    = ((if is_undefined H then []
        else [(name_value (hashKeyName (class this)), H)])
       ++ (if is_undefined R then []
           else [(name_value (rangeKeyName (class this)), R)]))%list /\
  pending c = None /\
  ifFilter c = [] /\ havingFilter c = [] /\
  returnValues c = None /\ exclusiveStartKey c = None /\ limitValue c = None /\
  unfiltered (_initClient this VUndefined VUndefined).
Proof.
  unfold _initClient, unfiltered.
  destruct (is_undefined H), (is_undefined R); cbn; by repeat split.
Qed.

(** X5: [_execQuery] refuses a query that is not a function with an
    ArgError and does nothing else.  A query that is a function returning
    a promise is run exactly once, after one reading of the clock: when it
    throws, so does [_execQuery]; when its promise is fulfilled, or
    rejected with anything but [undefined] or [null], that outcome is
    handed on as it is after one more reading of the clock; when its
    promise is rejected with [undefined] or [null], the promise handed on
    is rejected with a TypeError and the clock is not read again. *)
Theorem execQuery_hands_on_the_outcome (this : Entity) (query : query_argument)
    (l : option logger) (w : World) :
  match query with
  | NotCallable _ =>
      _execQuery env this query l w = (Throw (ArgError "Invalid query (arg #1)"), w)
  | Callable run =>
      match run (after_clock_read w) with
      | (Normal (Fulfilled v), w') =>
          _execQuery env this query l w = (Normal (Fulfilled v), after_clock_read w')
      | (Normal (Rejected e), w') =>
          if rejected_with_nothing e
          then exists message,
                 _execQuery env this query l w
                 = (Normal (Rejected (TypeError message)), w')
          else _execQuery env this query l w
               = (Normal (Rejected e), after_clock_read w')
      | (Throw e, w') => _execQuery env this query l w = (Throw e, w')
      end
  end.
Proof.
  destruct query as [run|v]; [|reflexivity].
  unfold _execQuery, bind, now, after_clock_read. cbn [tokens clock_reads sent].
  destruct (run _) as [[p|e] w']; [|reflexivity].
  destruct p as [v|e]; [reflexivity|].
  destruct e as [| | | | |v]; try reflexivity.
  destruct v; cbn; try reflexivity; by eexists.
Qed.

End Base.

(** ** The five operations on arbitrary arguments *)

Lemma _initParams_throws_ArgError (this : Entity)
    (keys operation audit optional : value) (e : error) :
  _initParams this keys operation audit optional = Throw e ->
  exists message, e = ArgError message.
Proof.
  unfold _initParams.
  destruct keys as [| | | | |k| |]; cbn [checkObject orThrow cbind];
    try (intros [= <-]; eauto; fail).
  rewrite _getHashKey_obj, _getRangeKey_obj. cbv zeta.
  destruct (negb _ && negb _); [intros [= <-]; eauto|]. cbn [cbind].
  destruct (_getUsername_total this audit) as [u Hu].
  destruct (rangeKeyName (class this)) as [name|].
  - destruct (is_undefined _ && truthy optional).
    + cbn [cbind]. rewrite Hu. discriminate.
    + destruct (negb _ && negb _); [intros [= <-]; eauto|].
      cbn [cbind]. rewrite Hu. discriminate.
  - cbn [cbind]. rewrite Hu. discriminate.
Qed.

Section Cases.

Context (env : Env).

Lemma create_cases (this : Entity) (keys props audit : value) (w : World) :
  (exists message,
     SimpleEntity.create env this keys props audit w = (Throw (ArgError message), w)) \/
  (exists p w' payload c,
     SimpleEntity.create env this keys props audit w = (Normal p, w') /\
     sent w' = (sent w ++ [{| req_action := Insert payload; req_client := c |}])%list).
Proof.
  destruct (checkObject props) eqn:Hprops.
  - destruct (_initParams this keys (VStr "create") audit
                (SimpleEntity.rangeKeyOptional this)) as [params|e] eqn:Hp.
    + right. rewrite (create_run env _ _ _ _ _ w Hprops Hp). cbv zeta.
      do 4 eexists. split; reflexivity.
    + left. destruct (_initParams_throws_ArgError _ _ _ _ _ _ Hp) as [m ->].
      exists m. unfold SimpleEntity.create, bind, lift. by rewrite Hprops, Hp.
  - left. eexists. unfold SimpleEntity.create, bind, lift. by rewrite Hprops.
Qed.

Lemma lookup_cases (this : Entity) (keys audit : value) (w : World) :
  (exists message,
     SimpleEntity.lookup env this keys audit w = (Throw (ArgError message), w)) \/
  (exists p w' c,
     SimpleEntity.lookup env this keys audit w = (Normal p, w') /\
     sent w' = (sent w ++ [{| req_action := Get; req_client := c |}])%list).
Proof.
  destruct (_initParams this keys (VStr "lookup") audit
              (SimpleEntity.rangeKeyOptional this)) as [params|e] eqn:Hp.
  - right. rewrite (lookup_run env _ _ _ _ w Hp). cbv zeta.
    do 3 eexists. split; reflexivity.
  - left. destruct (checkObject keys) eqn:Hk.
    + destruct (_initParams_throws_ArgError _ _ _ _ _ _ Hp) as [m ->].
      exists m. unfold SimpleEntity.lookup, bind, lift. by rewrite Hk, Hp.
    + eexists. unfold SimpleEntity.lookup, bind, lift. by rewrite Hk.
Qed.

Lemma list_cases (this : Entity) (keys count audit : value) (w : World) :
  (exists message,
     SimpleEntity.list env this keys count audit w = (Throw (ArgError message), w)) \/
  (exists p w' c,
     SimpleEntity.list env this keys count audit w = (Normal p, w') /\
     sent w' = (sent w ++ [{| req_action := Query; req_client := c |}])%list).
Proof.
  destruct (_initParams this keys (VStr "list") audit (VBool true))
    as [params|e] eqn:Hp.
  - right. rewrite (list_run env _ _ _ _ _ w Hp). cbv zeta.
    do 3 eexists. split; reflexivity.
  - left. destruct (checkObject keys) eqn:Hk.
    + destruct (_initParams_throws_ArgError _ _ _ _ _ _ Hp) as [m ->].
      exists m. unfold SimpleEntity.list, bind, lift. by rewrite Hk, Hp.
    + eexists. unfold SimpleEntity.list, bind, lift. by rewrite Hk.
Qed.

Lemma delete_cases (this : Entity) (keys version audit : value) (w : World) :
  (exists message,
     SimpleEntity.delete env this keys version audit w
     = (Throw (ArgError message), w)) \/
  (exists p w' c,
     SimpleEntity.delete env this keys version audit w = (Normal p, w') /\
     sent w' = (sent w ++ [{| req_action := Delete; req_client := c |}])%list).
Proof.
  destruct (checkObject keys) eqn:Hk;
    [|left; eexists; unfold SimpleEntity.delete, bind, lift; by rewrite Hk].
  destruct (checkStringMin version 1) eqn:Hv;
    [|left; eexists; unfold SimpleEntity.delete, bind, lift; by rewrite Hk, Hv].
  destruct (_initParams this keys (VStr "delete") audit
              (SimpleEntity.rangeKeyOptional this)) as [params|e] eqn:Hp.
  - right. rewrite (delete_run env _ _ _ _ _ w Hv Hp). cbv zeta.
    do 3 eexists. split; reflexivity.
  - left. destruct (_initParams_throws_ArgError _ _ _ _ _ _ Hp) as [m ->].
    exists m. unfold SimpleEntity.delete, bind, lift. by rewrite Hk, Hv, Hp.
Qed.

Lemma update_cases (this : Entity)
    (keys updateProps deleteProps version audit : value) (w : World) :
  let run := SimpleEntity.update env this keys updateProps deleteProps version audit w in
  (exists message, run = (Throw (ArgError message), w)) \/
  (exists e, selection env this updateProps deleteProps = Throw e /\
             run = (Throw e, w)) \/
  (exists p, run = (Normal p, w)) \/
  (exists p w' payload c,
     run = (Normal p, w') /\
     sent w' = (sent w ++ [{| req_action := Update payload; req_client := c |}])%list).
Proof.
  intros run. subst run.
  destruct (checkObject keys) eqn:Hk;
    [|left; eexists; unfold SimpleEntity.update, bind, lift; by rewrite Hk].
  destruct (checkObject updateProps) eqn:Hu;
    [|left; eexists; unfold SimpleEntity.update, bind, lift; by rewrite Hk, Hu].
  destruct (checkObject deleteProps) eqn:Hd;
    [|left; eexists; unfold SimpleEntity.update, bind, lift; by rewrite Hk, Hu, Hd].
  destruct (checkStringMin version 1) eqn:Hv;
    [|left; eexists; unfold SimpleEntity.update, bind, lift;
      by rewrite Hk, Hu, Hd, Hv].
  destruct (_initParams this keys (VStr "update") audit
              (SimpleEntity.rangeKeyOptional this)) as [params|e] eqn:Hp.
  - right.
    destruct (selection env this updateProps deleteProps) as [selected|e] eqn:Hs.
    + right. rewrite (update_run env _ _ _ _ _ _ _ _ w Hu Hd Hv Hp Hs). cbv zeta.
      destruct (0 <? length _)%nat.
      * right. do 4 eexists. split; reflexivity.
      * left. eauto.
    + left. exists e. split; [reflexivity|].
      apply (update_run_throw env _ _ _ _ _ _ params); assumption.
  - left. destruct (_initParams_throws_ArgError _ _ _ _ _ _ Hp) as [m ->].
    exists m. unfold SimpleEntity.update, bind, lift. by rewrite Hk, Hu, Hd, Hv, Hp.
Qed.

(** X6: Whatever its arguments, an operation that throws instead of
    returning a promise leaves the world as it was: nothing has been sent
    to the store, no token was generated and the clock was not read.  What
    create, lookup, list and delete throw is an ArgError; what update
    throws is an ArgError or the error that a copier threw while the
    fields were selected, such as the TypeError of calling [client.del]
    on a client that has no such method. *)
Theorem operations_throw_before_sending (this : Entity)
    (keys props updateProps deleteProps version count audit : value) (w : World) :
  (forall (run : M promise),
     run ∈ [ SimpleEntity.create env this keys props audit;
             SimpleEntity.lookup env this keys audit;
             SimpleEntity.list env this keys count audit;
             SimpleEntity.delete env this keys version audit ] ->
     forall e w', run w = (Throw e, w') ->
       w' = w /\ exists message, e = ArgError message) /\
  (forall e w',
     SimpleEntity.update env this keys updateProps deleteProps version audit w
     = (Throw e, w') ->
     w' = w /\
     ((exists message, e = ArgError message) \/
      selection env this updateProps deleteProps = Throw e)).
Proof.
  split.
  - intros run Hrun e w' Hthrow.
    repeat (apply elem_of_cons in Hrun as [->|Hrun]).
    + destruct (create_cases this keys props audit w)
        as [[m Hm]|(p & w1 & ? & ? & Hn & _)]; rewrite Hthrow in *; [|discriminate].
      injection Hm as -> ->. eauto.
    + destruct (lookup_cases this keys audit w)
        as [[m Hm]|(p & w1 & ? & Hn & _)]; rewrite Hthrow in *; [|discriminate].
      injection Hm as -> ->. eauto.
    + destruct (list_cases this keys count audit w)
        as [[m Hm]|(p & w1 & ? & Hn & _)]; rewrite Hthrow in *; [|discriminate].
      injection Hm as -> ->. eauto.
    + destruct (delete_cases this keys version audit w)
        as [[m Hm]|(p & w1 & ? & Hn & _)]; rewrite Hthrow in *; [|discriminate].
      injection Hm as -> ->. eauto.
    + by apply elem_of_nil in Hrun.
  - intros e w' Hthrow.
    destruct (update_cases this keys updateProps deleteProps version audit w)
      as [[m Hm]|[(e1 & Hs & Hm)|[[p Hn]|(p & w1 & ? & ? & Hn & _)]]];
      cbv zeta in *; rewrite Hthrow in *; try discriminate.
    + injection Hm as -> ->. eauto.
    + injection Hm as -> ->. eauto.
Qed.


End Cases.

(** ** The requests of lookup, delete, list and create *)

Lemma initParams_intro (this : Entity) (keys operation audit optional H R : value) :
  checkObject keys = true ->
  _getHashKey this keys = Normal H ->
  _getRangeKey this keys optional = Normal R ->
  exists params,
    _initParams this keys operation audit optional = Normal params /\
    hashKey params = H /\ rangeKey params = R /\
    _getUsername this audit = Normal (username params).
Proof.
  intros Hk Hh Hr. destruct (_getUsername_total this audit) as [u Hu].
  unfold _initParams. rewrite Hk, Hh, Hr, Hu. cbn [orThrow cbind].
  eexists. split; [reflexivity|]. by cbn.
Qed.

Lemma initClient_keys (this : Entity) (H R : value) :
  is_undefined H = false ->
  let c := _initClient this H R in
  table c = name_value (tableName (class this)) /\
  whereKey c
    = (name_value (hashKeyName (class this)), H)
      :: (if is_undefined R then []
          else [(name_value (rangeKeyName (class this)), R)]) /\
  pending c = None /\ ifFilter c = [] /\ havingFilter c = [] /\
  returnValues c = None /\ exclusiveStartKey c = None /\ limitValue c = None.
Proof.
  intros HH. unfold _initClient. rewrite HH.
  destruct (is_undefined R); cbn; by repeat split.
Qed.

Lemma getHashKey_defined (this : Entity) (keys H : value) :
  checkObject keys = true -> _getHashKey this keys = Normal H ->
  is_undefined H = false.
Proof.
  intros Hk Hh. apply checkObject_true in Hk as [k ->].
  apply _getHashKey_Normal in Hh as [_ Hh]. by apply key_value_defined.
Qed.

Lemma if_eq_fields (c : client) (field v : value) :
  let c' := Client.eq (Client.if_ c field) v in
  table c' = table c /\
  whereKey c' = whereKey c /\
  ifFilter c' = (ifFilter c ++ [(field, v)])%list /\
  havingFilter c' = havingFilter c /\
  returnValues c' = returnValues c /\
  exclusiveStartKey c' = exclusiveStartKey c /\
  limitValue c' = limitValue c.
Proof. by repeat split. Qed.

Section Requests.

Context (env : Env).

(** X8: On keys that yield the hash key [H] and the range key [R], lookup
    sends one get that is filtered on the hash key, and on the range key
    when there is one, under the single condition that [__status] is
    active; it asks for no image, sets no limit and no cursor, generates
    no token, and resolves with the very data that the store returns. *)
Theorem lookup_request (this : Entity) (keys audit H R : value) (w : World) :
  yields this keys H R ->
  exists p w' c,
    SimpleEntity.lookup env this keys audit w = (Normal p, w') /\
    sent w' = (sent w ++ [{| req_action := Get; req_client := c |}])%list /\
    tokens w' = tokens w /\
    table c = name_value (tableName (class this)) /\
    whereKey c
      = (name_value (hashKeyName (class this)), H)
        :: (if is_undefined R then []
            else [(name_value (rangeKeyName (class this)), R)]) /\
    ifFilter c = [(VStr "__status", VStr "active")] /\
    havingFilter c = [] /\
    returnValues c = None /\ exclusiveStartKey c = None /\ limitValue c = None /\
    (forall data,
       store env (sent w) {| req_action := Get; req_client := c |} = StoreOk data ->
       p = Fulfilled data).
Proof.
  intros Hy.
  destruct (yields_initParams this keys H R (VStr "lookup") audit Hy)
    as (params & Hp & <- & <- & _).
  rewrite (lookup_run env _ _ _ _ w Hp). cbv zeta.
  do 3 eexists. split; [reflexivity|]. split; [reflexivity|]. split; [reflexivity|].
  destruct (initClient_keys this (hashKey params) (rangeKey params)
              (yields_defined _ _ _ _ Hy))
    as (Ht & Hw & Hpend & Hi & Hh & Hr & He & Hl).
  destruct (if_eq_fields (_initClient this (hashKey params) (rangeKey params))
              (VStr "__status") (VStr "active"))
    as (Ht1 & Hw1 & Hi1 & Hh1 & Hr1 & He1 & Hl1).
  rewrite Ht1, Hw1, Hi1, Hh1, Hr1, He1, Hl1, Ht, Hw, Hi, Hh, Hr, He, Hl.
  repeat split. by intros data ->.
Qed.

(** X9: On keys that yield [H] and [R] and a version [V] of at least one
    character, delete sends one delete that is filtered on the keys under
    the two conditions that [__status] is active and that [__version] is
    [V]; unlike update it asks for no image of the record and generates no
    token, and it resolves with the very data that the store returns. *)
Theorem delete_request (this : Entity) (keys V audit H R : value) (w : World) :
  yields this keys H R ->
  checkStringMin V 1 = true ->
  exists p w' c,
    SimpleEntity.delete env this keys V audit w = (Normal p, w') /\
    sent w' = (sent w ++ [{| req_action := Delete; req_client := c |}])%list /\
    tokens w' = tokens w /\
    table c = name_value (tableName (class this)) /\
    whereKey c
      = (name_value (hashKeyName (class this)), H)
        :: (if is_undefined R then []
            else [(name_value (rangeKeyName (class this)), R)]) /\
    ifFilter c = [(VStr "__status", VStr "active"); (VStr "__version", V)] /\
    havingFilter c = [] /\
    returnValues c = None /\ exclusiveStartKey c = None /\ limitValue c = None /\
    (forall data,
       store env (sent w) {| req_action := Delete; req_client := c |} = StoreOk data ->
       p = Fulfilled data).
Proof.
  intros Hy HV.
  destruct (yields_initParams this keys H R (VStr "delete") audit Hy)
    as (params & Hp & <- & <- & _).
  rewrite (delete_run env _ _ _ _ _ w HV Hp). cbv zeta.
  do 3 eexists. split; [reflexivity|]. split; [reflexivity|]. split; [reflexivity|].
  destruct (initClient_keys this (hashKey params) (rangeKey params)
              (yields_defined _ _ _ _ Hy))
    as (Ht & Hw & Hpend & Hi & Hh & Hr & He & Hl).
  destruct (if_eq_fields (_initClient this (hashKey params) (rangeKey params))
              (VStr "__status") (VStr "active"))
    as (Ht1 & Hw1 & Hi1 & Hh1 & Hr1 & He1 & Hl1).
  destruct (if_eq_fields
              (Client.eq (Client.if_ (_initClient this (hashKey params)
                                                  (rangeKey params))
                                     (VStr "__status")) (VStr "active"))
              (VStr "__version") V)
    as (Ht2 & Hw2 & Hi2 & Hh2 & Hr2 & He2 & Hl2).
  rewrite Ht2, Hw2, Hi2, Hh2, Hr2, He2, Hl2.
  rewrite Ht1, Hw1, Hi1, Hh1, Hr1, He1, Hl1, Ht, Hw, Hi, Hh, Hr, He, Hl.
  repeat split. by intros data ->.
Qed.

(** X10: list filters its query on the hash key alone, also when the keys hold
    a range key, and keeps the records whose [__status] is active; it sets
    no condition and asks for no image.  The page is limited to [count]
    exactly when [count] is a number that is at least 1, and is not
    limited otherwise; list resolves with the very data that the store
    returns. *)
Theorem list_request (this : Entity) (keys count audit H R : value) (w : World) :
  checkObject keys = true ->
  _getHashKey this keys = Normal H ->
  _getRangeKey this keys (VBool true) = Normal R ->
  exists p w' c,
    SimpleEntity.list env this keys count audit w = (Normal p, w') /\
    sent w' = (sent w ++ [{| req_action := Query; req_client := c |}])%list /\
    tokens w' = tokens w /\
    table c = name_value (tableName (class this)) /\
    whereKey c = [(name_value (hashKeyName (class this)), H)] /\
    havingFilter c = [(VStr "__status", VStr "active")] /\
    ifFilter c = [] /\
    returnValues c = None /\
    ((exists n, count = VNum n /\ (1 <= n)%Z) -> limitValue c = Some count) /\
    (~ (exists n, count = VNum n /\ (1 <= n)%Z) -> limitValue c = None) /\
    (forall data,
       store env (sent w) {| req_action := Query; req_client := c |} = StoreOk data ->
       p = Fulfilled data).
Proof.
  intros Hk Hh Hr.
  destruct (initParams_intro this keys (VStr "list") audit (VBool true) H R Hk Hh Hr)
    as (params & Hp & <- & <- & _).
  rewrite (list_run env _ _ _ _ _ w Hp). cbv zeta.
  do 3 eexists. split; [reflexivity|]. split; [reflexivity|]. split; [reflexivity|].
  pose proof (getHashKey_defined _ _ _ Hk Hh) as Hdef.
  unfold _initClient. rewrite Hdef. cbn [negb is_undefined].
  pose proof (checkNumber_true count) as Hc.
  destruct (negb (is_undefined (rangeKey params))), (checkNumber count); cbn.
  all: repeat split; try done; try (by intros data ->).
  all: intros Hn; first [destruct Hn; by apply Hc | apply Hc in Hn; discriminate].
Qed.

End Requests.

(** ** The payloads of create and update *)

Section Payloads.

Context (env : Env).

Lemma generated_other (u version created updated : value) (m : obj) (name : string) :
  name ∉ reserved_fields ->
  (<["__updateDate" := updated]>
     (<["__updatedBy" := u]>
        (<["__createDate" := created]>
           (<["__createdBy" := u]>
              (<["__version" := version]> {[ "__status" := VStr "active" ]}))))
   ∪ m) !! name = m !! name.
Proof.
  intros Hname. unfold reserved_fields in Hname. apply lookup_union_r.
  repeat (rewrite lookup_insert_ne
            by (intros <-; apply Hname;
                repeat first [apply list_elem_of_here | apply list_elem_of_further])).
  apply lookup_singleton_ne.
  intros <-; apply Hname;
    repeat first [apply list_elem_of_here | apply list_elem_of_further].
Qed.

(** X11: The insert of create goes through a client that filters nothing, bound
    to the table of the entity, and its payload identifies the record: it
    holds the hash key under the hash-key field, and the range key under
    the range-key field when the entity declares one and the keys hold it,
    unless the field has the name of a generated field.  create resolves
    with the very data that the store returns. *)
Theorem create_request (this : Entity) (keys props audit H R : value) (w : World) :
  yields this keys H R ->
  checkObject props = true ->
  exists p w' payload c,
    SimpleEntity.create env this keys props audit w = (Normal p, w') /\
    sent w' = (sent w ++ [{| req_action := Insert payload; req_client := c |}])%list /\
    table c = name_value (tableName (class this)) /\
    unfiltered c /\
    (prop_name (hashKeyName (class this)) ∉ reserved_fields ->
       payload !! prop_name (hashKeyName (class this)) = Some H) /\
    (forall name, rangeKeyName (class this) = Some name ->
       name ∉ reserved_fields -> R <> VUndefined ->
       payload !! name = Some R) /\
    (forall data,
       store env (sent w) {| req_action := Insert payload; req_client := c |}
         = StoreOk data ->
       p = Fulfilled data).
Proof.
  intros Hy Hprops.
  destruct (yields_initParams this keys H R (VStr "create") audit Hy)
    as (params & Hp & _).
  rewrite (create_run env _ _ _ _ _ w Hprops Hp). cbv zeta.
  destruct Hy as (Hk & Hh & Hr).
  apply checkObject_true in Hk as [k ->]. apply checkObject_true in Hprops as [pr ->].
  rewrite Object_assign_3.
  do 4 eexists. split; [reflexivity|]. split; [reflexivity|].
  split; [reflexivity|]. split; [by repeat split|].
  apply _getHashKey_Normal in Hh as [Hh HH]. apply _getRangeKey_Normal in Hr.
  assert (forall name v, obj_get k name = v -> v <> VUndefined -> k !! name = Some v)
    as Hget.
  { unfold obj_get. intros name v <- Hv. by destruct (k !! name). }
  split; [|split].
  - intros Hname. rewrite generated_other by done.
    apply lookup_union_Some_l, Hget; [done|].
    intros ->. by apply key_value_defined in HH.
  - intros name Hrk Hname HR. rewrite Hrk in Hr. destruct Hr as [Hr _].
    rewrite generated_other by done.
    by apply lookup_union_Some_l, Hget.
  - by intros data ->.
Qed.

(** X12: When the copiers select the fields [selected], which are not
    none, the payload of update is [selected] with three stamps written
    over it: [__version] is the newly generated token,
    [__updatedBy] the resolved username and [__updateDate] the reading of
    the clock; every other field, the status and the audit fields of the
    creation among them, is in the payload only as the copiers selected
    it.  The call takes exactly one token. *)
Theorem update_payload (this : Entity)
    (keys updateProps deleteProps V audit H R u : value) (selected : obj)
    (w : World) :
  yields this keys H R ->
  _getUsername this audit = Normal u ->
  checkObject updateProps = true ->
  checkObject deleteProps = true ->
  checkStringMin V 1 = true ->
  selection env this updateProps deleteProps = Normal selected ->
  Object_keys selected <> [] ->
  exists p w' payload c,
    SimpleEntity.update env this keys updateProps deleteProps V audit w
      = (Normal p, w') /\
    sent w' = (sent w ++ [{| req_action := Update payload; req_client := c |}])%list /\
    tokens w' = S (tokens w) /\
    payload !! "__version" = Some (VStr (shortId_generate env (tokens w))) /\
    payload !! "__updatedBy" = Some u /\
    payload !! "__updateDate" = Some (VNum (Date_now env (clock_reads w))) /\
    (forall name,
       name ∉ ["__version"; "__updatedBy"; "__updateDate"] ->
       payload !! name = selected !! name).
Proof.
  intros Hy Hu Hup Hdp HV Hselected Hsel.
  destruct (yields_initParams this keys H R (VStr "update") audit Hy)
    as (params & Hp & _ & _ & Hu').
  rewrite Hu in Hu'. injection Hu' as ->.
  rewrite (update_run env _ _ _ _ _ _ _ _ w Hup Hdp HV Hp Hselected). cbv zeta.
  rewrite (Object_keys_nonempty _ Hsel).
  do 4 eexists. split; [reflexivity|]. split; [reflexivity|]. split; [reflexivity|].
  split; [by simplify_map_eq|]. split; [by simplify_map_eq|].
  split; [by simplify_map_eq|].
  intros name Hname.
  repeat (rewrite lookup_insert_ne
            by (intros <-; apply Hname;
                repeat first [apply list_elem_of_here | apply list_elem_of_further])).
  reflexivity.
Qed.

(** X13: A create followed by an update for which the copiers select at
    least one field stamps two different versions on the record whenever
    the token generator never repeats a token: the update takes the token
    after the one of the create. *)
Theorem versions_rotate (this : Entity)
    (keys props updateProps deleteProps V audit H R : value) (selected : obj)
    (w : World) :
  yields this keys H R ->
  checkObject props = true ->
  checkObject updateProps = true ->
  checkObject deleteProps = true ->
  checkStringMin V 1 = true ->
  selection env this updateProps deleteProps = Normal selected ->
  Object_keys selected <> [] ->
  exists p1 w1 inserted c1 p2 w2 updated c2,
    SimpleEntity.create env this keys props audit w = (Normal p1, w1) /\
    sent w1 = (sent w ++ [{| req_action := Insert inserted; req_client := c1 |}])%list /\
    SimpleEntity.update env this keys updateProps deleteProps V audit w1
      = (Normal p2, w2) /\
    sent w2 = (sent w1 ++ [{| req_action := Update updated; req_client := c2 |}])%list /\
    inserted !! "__version" = Some (VStr (shortId_generate env (tokens w))) /\
    updated !! "__version" = Some (VStr (shortId_generate env (S (tokens w)))) /\
    ((forall i j, shortId_generate env i = shortId_generate env j -> i = j) ->
       inserted !! "__version" <> updated !! "__version").
Proof.
  intros Hy Hprops Hup Hdp HV Hselected Hsel.
  destruct (yields_initParams this keys H R (VStr "create") audit Hy)
    as (pc & Hpc & _).
  destruct (yields_initParams this keys H R (VStr "update") audit Hy)
    as (pu & Hpu & _).
  rewrite (create_run env _ _ _ _ _ w Hprops Hpc). cbv zeta.
  eexists _, _, _, _.
  rewrite (update_run env _ _ _ _ _ _ _ _ _ Hup Hdp HV Hpu Hselected). cbv zeta.
  rewrite (Object_keys_nonempty _ Hsel). cbn [tokens clock_reads sent].
  eexists _, _, _, _.
  split; [reflexivity|]. split; [reflexivity|]. split; [reflexivity|].
  split; [reflexivity|].
  assert (Object_assign ∅
            [props; keys;
             VObj (<["__updateDate" := VNum (Date_now env (S (clock_reads w)))]>
                     (<["__updatedBy" := username pc]>
                        (<["__createDate" := VNum (Date_now env (clock_reads w))]>
                           (<["__createdBy" := username pc]>
                              (<["__version" := VStr (shortId_generate env (tokens w))]>
                                 {[ "__status" := VStr "active" ]})))))]
            !! "__version"
          = Some (VStr (shortId_generate env (tokens w)))) as Hins.
  { unfold Object_assign. cbn [foldl own_props].
    apply lookup_union_Some_l. by simplify_map_eq. }
  assert (forall m : obj,
            <["__updateDate" := VNum (Date_now env (4 + clock_reads w))]>
              (<["__updatedBy" := username pu]>
                 (<["__version" := VStr (shortId_generate env (S (tokens w)))]> m))
            !! "__version"
            = Some (VStr (shortId_generate env (S (tokens w))))) as Hupd
    by (intros m; by simplify_map_eq).
  split; [exact Hins|]. split; [apply Hupd|].
  intros Hinj. rewrite Hins, Hupd. intros [= Heq]. apply Hinj in Heq. lia.
Qed.

End Payloads.

(** ** Invalid arguments *)

Section Arguments.

Context (env : Env).

(** X14: update checks its arguments from left to right before it looks into
    the keys, and reports the first one that is not valid: keys,
    updateProps and deleteProps that are not objects, then a version that
    is not a string of at least one character.  Nothing is sent. *)
Theorem update_reports_first_invalid_argument (this : Entity)
    (keys updateProps deleteProps version audit : value) (w : World) :
  let run := SimpleEntity.update env this keys updateProps deleteProps version audit w in
  (checkObject keys = false ->
     run = (Throw (ArgError "Invalid keys (arg #1)"), w)) /\
  (checkObject keys = true -> checkObject updateProps = false ->
     run = (Throw (ArgError "Invalid update properties (arg #2)"), w)) /\
  (checkObject keys = true -> checkObject updateProps = true ->
   checkObject deleteProps = false ->
     run = (Throw (ArgError "Invalid delete properties (arg #3)"), w)) /\
  (checkObject keys = true -> checkObject updateProps = true ->
   checkObject deleteProps = true -> checkString version = false ->
     run = (Throw (ArgError "Invalid version (arg #4)"), w)).
Proof.
  intros run. subst run. unfold SimpleEntity.update, bind, lift, checkString.
  repeat split; intros; repeat match goal with H : _ = _ |- _ => rewrite H; clear H end;
    reflexivity.
Qed.

(** X15: create checks props before it looks at the keys; delete checks that
    the keys are an object and then the version; lookup and list check
    that the keys are an object.  Each reports the argument by its
    position and sends nothing. *)
Theorem invalid_arguments_are_reported (this : Entity)
    (keys props version count audit : value) (w : World) :
  (checkObject props = false ->
     SimpleEntity.create env this keys props audit w
     = (Throw (ArgError "Invalid props (arg #2)"), w)) /\
  (checkObject props = true -> checkObject keys = false ->
     SimpleEntity.create env this keys props audit w
     = (Throw (ArgError "Invalid keys (arg #1)"), w)) /\
  (checkObject keys = false ->
     SimpleEntity.lookup env this keys audit w
     = (Throw (ArgError "Invalid keys (arg #1)"), w)) /\
  (checkObject keys = false ->
     SimpleEntity.list env this keys count audit w
     = (Throw (ArgError "Invalid keys (arg #1)"), w)) /\
  (checkObject keys = false ->
     SimpleEntity.delete env this keys version audit w
     = (Throw (ArgError "Invalid keys (arg #1)"), w)) /\
  (checkObject keys = true -> checkString version = false ->
     SimpleEntity.delete env this keys version audit w
     = (Throw (ArgError "Invalid version (arg #2)"), w)).
Proof.
  unfold SimpleEntity.create, SimpleEntity.lookup, SimpleEntity.list,
    SimpleEntity.delete, bind, lift, _initParams, checkString.
  repeat split; intros; repeat match goal with H : _ = _ |- _ => rewrite H; clear H end;
    reflexivity.
Qed.

Lemma rangeKeyOptional_declared (this : Entity) (name : string) :
  rangeKeyName (class this) = Some name -> name <> "" ->
  SimpleEntity.rangeKeyOptional this = VBool false.
Proof.
  intros Hrk Hname. unfold SimpleEntity.rangeKeyOptional. rewrite Hrk.
  by destruct name.
Qed.

(** X16: On an entity that declares a range-key field, keys that hold a valid
    hash key and no range key are refused by create, lookup, update and
    delete, which name the range-key field in their error and send
    nothing; list accepts them and queries by the hash key alone, without
    a cursor. *)
Theorem only_list_accepts_keys_without_range_key (this : Entity) (name : string)
    (k : obj) (props updateProps deleteProps V count audit : value) (w : World) :
  rangeKeyName (class this) = Some name ->
  name <> "" ->
  key_value (obj_get k (prop_name (hashKeyName (class this)))) ->
  k !! name = None ->
  checkObject props = true ->
  checkObject updateProps = true ->
  checkObject deleteProps = true ->
  checkStringMin V 1 = true ->
  let refusal := ArgError ("Invalid range key (keys." +:+ name +:+ ")") in
  SimpleEntity.create env this (VObj k) props audit w = (Throw refusal, w) /\
  SimpleEntity.lookup env this (VObj k) audit w = (Throw refusal, w) /\
  SimpleEntity.update env this (VObj k) updateProps deleteProps V audit w
    = (Throw refusal, w) /\
  SimpleEntity.delete env this (VObj k) V audit w = (Throw refusal, w) /\
  exists p w' c,
    SimpleEntity.list env this (VObj k) count audit w = (Normal p, w') /\
    sent w' = (sent w ++ [{| req_action := Query; req_client := c |}])%list /\
    whereKey c
      = [(name_value (hashKeyName (class this)),
          obj_get k (prop_name (hashKeyName (class this))))] /\
    exclusiveStartKey c = None.
Proof.
  intros Hrk Hname Hhash Hnone Hprops Hup Hdp HV refusal.
  assert (obj_get k name = VUndefined) as Hundef by (unfold obj_get; by rewrite Hnone).
  assert (forall operation,
            _initParams this (VObj k) operation audit
              (SimpleEntity.rangeKeyOptional this) = Throw refusal) as Hrefused.
  { intros operation. unfold _initParams. cbn [checkObject orThrow cbind].
    rewrite _getHashKey_obj, _getRangeKey_obj. cbv zeta.
    apply key_value_checks in Hhash. rewrite Hhash. cbn [cbind].
    rewrite Hrk, (rangeKeyOptional_declared this name Hrk Hname), Hundef.
    reflexivity. }
  unfold SimpleEntity.create, SimpleEntity.lookup, SimpleEntity.update,
    SimpleEntity.delete, bind at 1 2 3 4 5 6 7 8 9 10 11 12 13 14 15, lift.
  rewrite Hprops, Hup, Hdp, HV, !Hrefused. cbn [checkObject orThrow].
  do 4 (split; [reflexivity|]).
  assert (_getHashKey this (VObj k)
          = Normal (obj_get k (prop_name (hashKeyName (class this))))) as Hh.
  { rewrite _getHashKey_obj. cbv zeta. apply key_value_checks in Hhash.
    by rewrite Hhash. }
  assert (_getRangeKey this (VObj k) (VBool true) = Normal VUndefined) as Hr.
  { rewrite _getRangeKey_obj, Hrk. cbv zeta. by rewrite Hundef. }
  destruct (initParams_intro this (VObj k) (VStr "list") audit (VBool true) _ _
              eq_refl Hh Hr) as (params & Hp & HH & HR & _).
  rewrite (list_run env _ _ _ _ _ w Hp). cbv zeta.
  do 3 eexists. split; [reflexivity|]. split; [reflexivity|].
  rewrite HH, HR. unfold _initClient.
  rewrite (key_value_defined _ Hhash). cbn [negb is_undefined].
  by destruct (checkNumber count).
Qed.

End Arguments.

(** ** The default copiers *)

Section DefaultCopiers.

Context (env : Env).

(** X17: An entity class that keeps the two default copiers of [Entity] never
    writes through update: whatever the arguments, the call leaves the
    world as it was, and it either throws an ArgError or resolves with an
    empty list of properties and the version of the caller. *)
Theorem default_copiers_never_write (this : Entity)
    (keys updateProps deleteProps version audit : value) (w : World) :
  _updateCopier (class this) = DEFAULT_COPIER ->
  _deleteCopier (class this) = DEFAULT_COPIER ->
  (exists message,
     SimpleEntity.update env this keys updateProps deleteProps version audit w
     = (Throw (ArgError message), w)) \/
  SimpleEntity.update env this keys updateProps deleteProps version audit w
  = (Normal (Fulfilled
       (VObj (<["__version" := version]>
                (<["properties" := VArr []]> {[ "keys" := keys ]})))), w).
Proof.
  intros Hupdate Hdelete.
  destruct (checkObject keys) eqn:Hk;
    [|left; eexists; unfold SimpleEntity.update, bind, lift; by rewrite Hk].
  destruct (checkObject updateProps) eqn:Hu;
    [|left; eexists; unfold SimpleEntity.update, bind, lift; by rewrite Hk, Hu].
  destruct (checkObject deleteProps) eqn:Hd;
    [|left; eexists; unfold SimpleEntity.update, bind, lift; by rewrite Hk, Hu, Hd].
  destruct (checkStringMin version 1) eqn:Hv;
    [|left; eexists; unfold SimpleEntity.update, bind, lift;
      by rewrite Hk, Hu, Hd, Hv].
  destruct (_initParams this keys (VStr "update") audit
              (SimpleEntity.rangeKeyOptional this)) as [params|e] eqn:Hp.
  - right.
    assert (selection env this updateProps deleteProps = Normal ∅) as Hs
      by (unfold selection; by rewrite Hupdate, Hdelete).
    by rewrite (update_run env _ _ _ _ _ _ _ _ w Hu Hd Hv Hp Hs).
  - left. destruct (_initParams_throws_ArgError _ _ _ _ _ _ Hp) as [m ->].
    exists m. unfold SimpleEntity.update, bind, lift. by rewrite Hk, Hu, Hd, Hv, Hp.
Qed.

End DefaultCopiers.

(** ** The further properties on the entities of the unit tests *)

Lemma constructed_entity_resolves_a_username_example :
  exists s,
    _getUsername (Example.instance Example.RangeKeyEntity)
                 (VObj {[ "username" := VStr "" ]}) = Normal (VStr s) /\ s <> "".
Proof.
  exact (constructed_entity_resolves_a_username Example.loggers
           Example.RangeKeyEntity VUndefined
           (VObj {[ "username" := VStr "" ]})
           (Example.instance Example.RangeKeyEntity) eq_refl).
Defined.

Lemma lookup_request_example :
  let env := Example.env (StoreOk (VObj {[ "__status" := VStr "active" ]})) in
  let this := Example.instance Example.RangeKeyEntity in
  exists p w' c,
    SimpleEntity.lookup env this Example.keys VUndefined Example.world = (Normal p, w') /\
    sent w' = [{| req_action := Get; req_client := c |}] /\
    tokens w' = 0%nat /\
    table c = VStr "range_key_table" /\
    whereKey c = [(VStr "accountId", VStr "acme"); (VStr "entityId", VStr "e1")] /\
    ifFilter c = [(VStr "__status", VStr "active")] /\
    havingFilter c = [] /\
    returnValues c = None /\ exclusiveStartKey c = None /\ limitValue c = None /\
    (forall data,
       StoreOk (VObj {[ "__status" := VStr "active" ]}) = StoreOk data ->
       p = Fulfilled data).
Proof.
  intros env this.
  exact (lookup_request env this Example.keys VUndefined (VStr "acme") (VStr "e1")
           Example.world example_yields).
Defined.

Lemma delete_request_example :
  let env := Example.env (StoreOk VNull) in
  let this := Example.instance Example.RangeKeyEntity in
  exists p w' c,
    SimpleEntity.delete env this Example.keys (VStr "v1") VUndefined Example.world
      = (Normal p, w') /\
    sent w' = [{| req_action := Delete; req_client := c |}] /\
    tokens w' = 0%nat /\
    table c = VStr "range_key_table" /\
    whereKey c = [(VStr "accountId", VStr "acme"); (VStr "entityId", VStr "e1")] /\
    ifFilter c = [(VStr "__status", VStr "active"); (VStr "__version", VStr "v1")] /\
    havingFilter c = [] /\
    returnValues c = None /\ exclusiveStartKey c = None /\ limitValue c = None /\
    (forall data, StoreOk VNull = StoreOk data -> p = Fulfilled data).
Proof.
  intros env this.
  exact (delete_request env this Example.keys (VStr "v1") VUndefined (VStr "acme")
           (VStr "e1") Example.world example_yields eq_refl).
Defined.

Lemma list_request_example :
  let env := Example.env (StoreOk (VArr [])) in
  let this := Example.instance Example.RangeKeyEntity in
  exists p w' c,
    SimpleEntity.list env this Example.hashOnlyKeys (VNum 10) VUndefined Example.world
      = (Normal p, w') /\
    sent w' = [{| req_action := Query; req_client := c |}] /\
    tokens w' = 0%nat /\
    table c = VStr "range_key_table" /\
    whereKey c = [(VStr "accountId", VStr "acme")] /\
    havingFilter c = [(VStr "__status", VStr "active")] /\
    ifFilter c = [] /\
    returnValues c = None /\
    ((exists n, VNum 10 = VNum n /\ (1 <= n)%Z) -> limitValue c = Some (VNum 10)) /\
    (~ (exists n, VNum 10 = VNum n /\ (1 <= n)%Z) -> limitValue c = None) /\
    (forall data, StoreOk (VArr []) = StoreOk data -> p = Fulfilled data).
Proof.
  intros env this.
  exact (list_request env this Example.hashOnlyKeys (VNum 10) VUndefined (VStr "acme")
           VUndefined Example.world eq_refl eq_refl eq_refl).
Defined.

Lemma create_request_example :
  let env := Example.env (StoreOk VNull) in
  let this := Example.instance Example.RangeKeyEntity in
  exists p w' payload c,
    SimpleEntity.create env this Example.keys Example.props VUndefined Example.world
      = (Normal p, w') /\
    sent w' = [{| req_action := Insert payload; req_client := c |}] /\
    table c = VStr "range_key_table" /\
    unfiltered c /\
    ("accountId" ∉ reserved_fields -> payload !! "accountId" = Some (VStr "acme")) /\
    (forall name, Some "entityId" = Some name ->
       name ∉ reserved_fields -> VStr "e1" <> VUndefined ->
       payload !! name = Some (VStr "e1")) /\
    (forall data, StoreOk VNull = StoreOk data -> p = Fulfilled data).
Proof.
  intros env this.
  exact (create_request env this Example.keys Example.props VUndefined (VStr "acme")
           (VStr "e1") Example.world example_yields eq_refl).
Defined.

Lemma update_payload_example :
  let env := Example.env (StoreOk VNull) in
  let this := Example.instance Example.RangeKeyEntity in
  let selected : obj := {[ "prop1" := VStr "new" ]} in
  exists p w' payload c,
    SimpleEntity.update env this Example.keys Example.updateProps
      Example.noProps (VStr "v1") VUndefined Example.world = (Normal p, w') /\
    sent w' = [{| req_action := Update payload; req_client := c |}] /\
    tokens w' = 1%nat /\
    payload !! "__version" = Some (VStr (shortId_generate env 0)) /\
    payload !! "__updatedBy" = Some (VStr "SYSTEM") /\
    payload !! "__updateDate" = Some (VNum (Date_now env 0)) /\
    (forall name,
       name ∉ ["__version"; "__updatedBy"; "__updateDate"] ->
       payload !! name = selected !! name).
Proof.
  intros env this selected.
  apply (update_payload env this Example.keys Example.updateProps
           Example.noProps (VStr "v1") VUndefined (VStr "acme") (VStr "e1")
           (VStr "SYSTEM") selected Example.world example_yields eq_refl eq_refl
           eq_refl eq_refl).
  - vm_compute. reflexivity.
  - vm_compute. discriminate.
Defined.

Lemma versions_rotate_example :
  let env := Example.env (StoreOk VNull) in
  let this := Example.instance Example.RangeKeyEntity in
  exists p1 w1 inserted c1 p2 w2 updated c2,
    SimpleEntity.create env this Example.keys Example.props VUndefined Example.world
      = (Normal p1, w1) /\
    sent w1 = [{| req_action := Insert inserted; req_client := c1 |}] /\
    SimpleEntity.update env this Example.keys Example.updateProps
      Example.noProps (VStr "v1") VUndefined w1 = (Normal p2, w2) /\
    sent w2 = (sent w1 ++ [{| req_action := Update updated; req_client := c2 |}])%list /\
    inserted !! "__version" = Some (VStr (shortId_generate env 0)) /\
    updated !! "__version" = Some (VStr (shortId_generate env 1)) /\
    ((forall i j, shortId_generate env i = shortId_generate env j -> i = j) ->
       inserted !! "__version" <> updated !! "__version").
Proof.
  intros env this.
  apply (versions_rotate env this Example.keys Example.props Example.updateProps
           Example.noProps (VStr "v1") VUndefined (VStr "acme") (VStr "e1")
           {[ "prop1" := VStr "new" ]} Example.world example_yields eq_refl
           eq_refl eq_refl eq_refl).
  - vm_compute. reflexivity.
  - vm_compute. discriminate.
Defined.

Lemma only_list_accepts_keys_without_range_key_example :
  let env := Example.env (StoreOk (VArr [])) in
  let this := Example.instance Example.RangeKeyEntity in
  let k : obj := {[ "accountId" := VStr "acme" ]} in
  let refusal := ArgError "Invalid range key (keys.entityId)" in
  SimpleEntity.create env this (VObj k) Example.props VUndefined Example.world
    = (Throw refusal, Example.world) /\
  SimpleEntity.lookup env this (VObj k) VUndefined Example.world
    = (Throw refusal, Example.world) /\
  SimpleEntity.update env this (VObj k) Example.updateProps Example.deleteProps
    (VStr "v1") VUndefined Example.world = (Throw refusal, Example.world) /\
  SimpleEntity.delete env this (VObj k) (VStr "v1") VUndefined Example.world
    = (Throw refusal, Example.world) /\
  exists p w' c,
    SimpleEntity.list env this (VObj k) (VNum 10) VUndefined Example.world
      = (Normal p, w') /\
    sent w' = [{| req_action := Query; req_client := c |}] /\
    whereKey c = [(VStr "accountId", VStr "acme")] /\
    exclusiveStartKey c = None.
Proof.
  intros env this k refusal.
  apply (only_list_accepts_keys_without_range_key env this "entityId" k
           Example.props Example.updateProps Example.deleteProps (VStr "v1")
           (VNum 10) VUndefined Example.world eq_refl).
  - discriminate.
  - by apply example_key_value.
  - reflexivity.
  - reflexivity.
  - reflexivity.
  - reflexivity.
  - reflexivity.
Defined.

Lemma default_copiers_never_write_example :
  let env := Example.env (StoreOk VNull) in
  let this := Example.instance Entity_class in
  let keys := VObj {[ "undefined" := VStr "acme" ]} in
  (exists message,
     SimpleEntity.update env this keys Example.updateProps Example.deleteProps
       (VStr "v1") VUndefined Example.world
     = (Throw (ArgError message), Example.world)) \/
  SimpleEntity.update env this keys Example.updateProps Example.deleteProps
    (VStr "v1") VUndefined Example.world
  = (Normal (Fulfilled
       (VObj (<["__version" := VStr "v1"]>
                (<["properties" := VArr []]> {[ "keys" := keys ]})))),
     Example.world).
Proof.
  intros env this keys.
  exact (default_copiers_never_write env this keys Example.updateProps
           Example.deleteProps (VStr "v1") VUndefined Example.world eq_refl eq_refl).
Defined.
